(** * ppdmod: the likelihood, profile and read-out core, embedded in Rocq

    The Python sources under [src/] are embedded shallowly.

    - Python floats and float64 array entries are the kernel's binary64
      floats ([PrimFloat.float]); comparisons, sums, products and quotients
      are the IEEE-754 ones, so a run of the embedding on concrete numbers
      is the run of the Python code.
    - One-dimensional numpy arrays are lists; element-wise operations are
      maps, reductions are folds.
    - A Python exception is the [Raise] branch of [result].
    - The transcendental functions of numpy ([exp], [power]) are library
      code: the float layer takes them as parameters constrained by their
      IEEE-754 / C99 special values.
    - Closed-form identities (the chi-square term, the sublimation
      round trip, the stellar quantities) are stated over the real
      numbers, the arithmetic the formulas are written in; the
      sublimation functions are embedded a second time on floats, where
      the round trip is followed to the ends of the float range.
    - A Python int is an integer of [Z]; giving it a unit makes a float
      of it and raises [OverflowError] beyond the float range. *)

From Stdlib Require Import List Bool Arith ZArith Lia String Sorted.
From Stdlib Require Import Reals Lra.
From Stdlib Require Import Floats.
Import ListNotations.

(** ** Python results *)

(** The exception classes the embedded code can raise.  [UnitConversionError]
    is astropy's; it derives from [ValueError]. *)
Inductive exn : Type :=
| IndexError
| ValueError
| IOError
| TypeError
| UnitConversionError
| NameError (name : string)
| AttributeError (name : string)
| OverflowError.

(** [isinstance(e, ValueError)] *)
Definition is_ValueError (e : exn) : bool :=
  match e with
  | ValueError | UnitConversionError => true
  | _ => false
  end.

Inductive result (A : Type) : Type :=
| Ok (a : A)
| Raise (e : exn).

Arguments Ok {A} a.
Arguments Raise {A} e.

Definition bind {A B : Type} (r : result A) (k : A -> result B) : result B :=
  match r with
  | Ok a => k a
  | Raise e => Raise e
  end.

Declare Scope py_scope.
Delimit Scope py_scope with py.
Notation "x <- c ;; k" := (bind c (fun x => k))
  (at level 61, c at next level, right associativity) : py_scope.
Open Scope py_scope.

(** [l[i]] for a non-negative index: [IndexError] out of range. *)
Definition getitem {A : Type} (l : list A) (i : nat) : result A :=
  match nth_error l i with
  | Some x => Ok x
  | None => Raise IndexError
  end.

(** ** Floats *)

Module Fl.

(** [np.isfinite], [np.isnan], [np.isinf] *)
Definition isfinite (x : float) : bool := PrimFloat.is_finite x.
Definition isnan (x : float) : bool := PrimFloat.is_nan x.
Definition isinf (x : float) : bool := PrimFloat.is_infinity x.

End Fl.

(** ** fitting_utils.py: the prior check and the likelihood entry point *)

Module Fitting.

(** A prior is the Python list [[lower, upper]]; [priors] is the list of
    them, [theta] the parameter vector. *)
Definition prior := list float.

(** The chained comparison [o[0] < theta[i] < o[1]]: [theta[i]] is
    evaluated once and [o[1]] only when the first comparison holds. *)
Definition strictly_within (o : prior) (theta : list float) (i : nat)
  : result bool :=
  lo <- getitem o 0 ;;
  x <- getitem theta i ;;
  if (lo <? x)%float
  then hi <- getitem o 1 ;; Ok (x <? hi)%float
  else Ok false.

(** The loop [for i, o in enumerate(priors)], from index [i] on. *)
Fixpoint lnprior_from (i : nat) (theta : list float) (priors : list prior)
  : result float :=
  match priors with
  | [] => Ok 0%float
  | o :: rest =>
      b <- strictly_within o theta i ;;
      if negb b then Ok neg_infinity
      else lnprior_from (S i) theta rest
  end.

Definition lnprior (theta : list float) (priors : list prior) : result float :=
  lnprior_from 0 theta priors.

(** What a call of [lnprob] leaves behind: its outcome and the parameter
    vectors on which the model was evaluated through [lnlike]. *)
Record run (A : Type) : Type :=
  Run { outcome : result A; lnlike_calls : list (list float) }.

Arguments Run {A} outcome lnlike_calls.
Arguments outcome {A} r.
Arguments lnlike_calls {A} r.

Section Lnprob.

(** [DataHandler] and the classes [lnlike] evaluates the model with
    ([CombinedModel], [FastFourierTransform]) are not part of the
    sources: the data object is abstract, with its [priors] attribute,
    and [lnlike] is the function [lnprob] calls. *)
Variable DataHandler : Type.
Variable priors : DataHandler -> list prior.
Variable lnlike : list float -> DataHandler -> result float.

(** [lnlike(theta, data) if np.isfinite(lnprior(theta, data.priors))
    else -np.inf]: the condition is evaluated first, then one branch. *)
Definition lnprob (theta : list float) (data : DataHandler) : run float :=
  match lnprior theta (priors data) with
  | Raise e => Run (Raise e) []
  | Ok p =>
      if Fl.isfinite p
      then Run (lnlike theta data) [theta]
      else Run (Ok neg_infinity) []
  end.

End Lnprob.

Arguments lnprob {DataHandler} priors lnlike theta data.

(** *** Reading the bounds *)

(** A prior holds its two bounds. *)
Definition two_bounds (o : prior) : Prop := 2 <= List.length o.

(** [lower < x < upper], the test of the loop body. *)
Definition strictly_inside (o : prior) (x : float) : bool :=
  match o with
  | lo :: hi :: _ => (lo <? x)%float && (x <? hi)%float
  | _ => false
  end.

(** [lower <= x <= upper], the closed interval [[lower, upper]]. *)
Definition inside_closed (o : prior) (x : float) : bool :=
  match o with
  | lo :: hi :: _ => (lo <=? x)%float && (x <=? hi)%float
  | _ => false
  end.

(** [x < lower] or [upper < x]: strictly outside [[lower, upper]]. *)
Definition strictly_outside (o : prior) (x : float) : bool :=
  match o with
  | lo :: hi :: _ => (x <? lo)%float || (hi <? x)%float
  | _ => false
  end.

Definition all_strictly_inside (theta : list float) (priors : list prior) : bool :=
  forallb (fun ox => strictly_inside (fst ox) (snd ox)) (combine priors theta).

Definition all_inside_closed (theta : list float) (priors : list prior) : bool :=
  forallb (fun ox => inside_closed (fst ox) (snd ox)) (combine priors theta).

(** The promise "returns a finite value when all parameters are inside
    their [[lower, upper]]", read at one input. *)
Definition finite_when_inside {DataHandler : Type}
  (priors : DataHandler -> list prior)
  (lnlike : list float -> DataHandler -> result float)
  (theta : list float) (data : DataHandler) : Prop :=
  all_inside_closed theta (priors data) = true ->
  exists v : float,
    outcome (lnprob priors lnlike theta data) = Ok v /\ Fl.isfinite v = true.

End Fitting.

(** ** fitting_utils.py: the chi-square term

    [chi_sq] is a closed formula in sums, products, [exp] and [log]; it is
    read over the real numbers. *)

Module ChiSq.

Local Open Scope R_scope.

(** [np.sum] *)
Definition sum (a : list R) : R := fold_right Rplus 0 a.

(** An element-wise operation on two arrays of one shape. *)
Definition zip_with {A B C : Type} (f : A -> B -> C)
  (xs : list A) (ys : list B) : list C :=
  map (fun xy => f (fst xy) (snd xy)) (combine xs ys).

(** [data_error**2 + data_model**2 * np.exp(2*lnf)], entry by entry. *)
Definition effective_variance (lnf error model : R) : R :=
  error ^ 2 + model ^ 2 * exp (2 * lnf).

Definition chi_sq (real_data data_error data_model : list R) (lnf : R) : R :=
  let inv_sigma_squared :=
    1 / sum (zip_with (effective_variance lnf) data_error data_model) in
  -0.5 * sum (zip_with (fun data model =>
                          (data - model) ^ 2 * inv_sigma_squared
                          - ln inv_sigma_squared)
                       real_data data_model).

(** The term with one effective variance per measurement:
    [-0.5 * sum((obs - model)^2 / s2 + ln(s2))],
    [s2 = err^2 + model^2 * exp(2*lnf)]. *)
Definition chi_sq_per_measurement
  (real_data data_error data_model : list R) (lnf : R) : R :=
  -0.5 * sum (zip_with (fun data em =>
                          (data - snd em) ^ 2
                          / effective_variance lnf (fst em) (snd em)
                          + ln (effective_variance lnf (fst em) (snd em)))
                       real_data (combine data_error data_model)).

(** The variances of all measurements, summed. *)
Definition total_variance (data_error data_model : list R) (lnf : R) : R :=
  sum (zip_with (effective_variance lnf) data_error data_model).

End ChiSq.

(** ** numpy arrays of one dimension *)

Module Np.

(** An element-wise binary operation on two one-dimensional arrays, with
    numpy's broadcasting: equal lengths pair up, a length-one array is
    stretched, any other pair of shapes is a [ValueError]. *)
Definition broadcast2 {A B C : Type} (f : A -> B -> C)
  (xs : list A) (ys : list B) : result (list C) :=
  if Nat.eqb (List.length xs) (List.length ys)
  then Ok (map (fun xy => f (fst xy) (snd xy)) (combine xs ys))
  else match xs, ys with
       | [x], _ => Ok (map (f x) ys)
       | _, [y] => Ok (map (fun x => f x y) xs)
       | _, _ => Raise ValueError
       end.

(** [a + b] on two columns of one table: the shapes agree. *)
Definition add (xs ys : list float) : list float :=
  map (fun xy => (fst xy + snd xy)%float) (combine xs ys).

(** [np.logical_and(a, b)] on two masks over the same array. *)
Definition logical_and (a b : list bool) : list bool :=
  map (fun xy => fst xy && snd xy) (combine a b).

(** [np.where(mask)[0].tolist()]: the indices of the true entries, in
    increasing order, counted from [i]. *)
Fixpoint where_from (i : nat) (mask : list bool) : list nat :=
  match mask with
  | [] => []
  | b :: rest => if b then i :: where_from (S i) rest else where_from (S i) rest
  end.

Definition where_ (mask : list bool) : list nat := where_from 0 mask.

(** *** Library functions on float64 *)

(** [y] is an integer: floats from 2^52 on are integers, below that
    rounding to an integer through 2^52 must change nothing. *)
Definition is_integer (y : float) : bool :=
  let a := abs y in
  if (0x1p52 <=? a)%float then PrimFloat.is_finite y
  else ((a + 0x1p52) - 0x1p52 =? a)%float.

Definition is_odd_integer (y : float) : bool :=
  is_integer y && negb (is_integer (y / 2)%float).

(** The sign of a float that is not a NaN: [true] for negative values,
    the negative zero included. *)
Definition signbit (x : float) : bool :=
  (x <? 0)%float || ((x =? 0)%float && (1 / x <? 0)%float).

(** [np.power(x, y)] on float64 is the C library's [pow].  Its special
    values are fixed by C99 (Annex F.10.4.4, the [pow] of IEEE 754) and are
    spelled out here; on the remaining operands (finite, non-zero, and a
    positive base or an integer exponent) the value is the library's,
    [ordinary x y]. *)
Definition power (ordinary : float -> float -> float) (x y : float) : float :=
  if (y =? 0)%float then 1%float
  else if (x =? 1)%float then 1%float
  else if PrimFloat.is_nan x || PrimFloat.is_nan y then nan
  else if (x =? 0)%float then
    if (y <? 0)%float
    then (if is_odd_integer y && signbit x then neg_infinity else infinity)
    else (if is_odd_integer y && signbit x then neg_zero else 0%float)
  else if PrimFloat.is_infinity y then
    if (abs x =? 1)%float then 1%float
    else if (abs x <? 1)%float
         then (if (y <? 0)%float then infinity else 0%float)
         else (if (y <? 0)%float then 0%float else infinity)
  else if (x =? infinity)%float then
    if (y <? 0)%float then 0%float else infinity
  else if (x =? neg_infinity)%float then
    if (y <? 0)%float
    then (if is_odd_integer y then neg_zero else 0%float)
    else (if is_odd_integer y then neg_infinity else infinity)
  else if (x <? 0)%float && negb (is_integer y) then nan
  else ordinary x y.

(** [np.exp(x)] on float64: the special values of C99 F.10.3.1, the
    library's value [ordinary x] elsewhere. *)
Definition exp (ordinary : float -> float) (x : float) : float :=
  if PrimFloat.is_nan x then nan
  else if (x =? 0)%float then 1%float
  else if (x =? infinity)%float then infinity
  else if (x =? neg_infinity)%float then 0%float
  else ordinary x.

End Np.

(** ** utils.py: the radiative profiles

    The functions are decorated with [u.quantity_input]: arguments arrive
    in the units of the signature and are carried here by their values in
    those units (mas, K, um, dimensionless). *)

Module Profiles.

Section WithLibrary.

(** The library's values of [np.power] and [np.exp] on ordinary operands,
    and Planck's law as astropy's [BlackBody] evaluates it: the spectral
    radiance at a wavelength and a temperature, in erg / (cm2 Hz s sr). *)
Variable pow_ordinary : float -> float -> float.
Variable exp_ordinary : float -> float.
Variable planck : float -> float -> float.

(** [models.BlackBody(temperature=T)(wavelength)]: astropy refuses a
    negative temperature with [ValueError] and evaluates Planck's law
    entry by entry otherwise. *)
Definition BlackBody (temperature : list float) (wavelength : float)
  : result (list float) :=
  if existsb (fun T => (T <? 0)%float) temperature then Raise ValueError
  else Ok (map (planck wavelength) temperature).

(** [models.PowerLaw1D().evaluate(x, amplitude, x_0, alpha)] of astropy:
    [amplitude * (x / x_0) ** (-alpha)]. *)
Definition PowerLaw1D_evaluate (x amplitude x_0 alpha : float) : float :=
  (amplitude * Np.power pow_ordinary (x / x_0) (- alpha))%float.

(** [a[a == np.inf] = 0.*a.unit] *)
Definition zero_where_inf (a : list float) : list float :=
  map (fun t => if (t =? infinity)%float then 0%float else t) a.

Definition temperature_gradient (radius : list float)
  (power_law_exponent inner_radius inner_temperature : float) : list float :=
  let temperature :=
    map (fun r => PowerLaw1D_evaluate r inner_temperature inner_radius
                    power_law_exponent) radius in
  zero_where_inf temperature.

Definition optical_depth_gradient (radius : list float)
  (power_law_exponent inner_radius inner_optical_depth : float) : list float :=
  let optical_depth :=
    map (fun r => PowerLaw1D_evaluate r inner_optical_depth inner_radius
                    power_law_exponent) radius in
  zero_where_inf optical_depth.

(** One steradian in mas^2, inverted: the factor of
    [.to(u.erg/(u.cm**2*u.Hz*u.s*u.mas**2))] (2.3504430539097886e-17). *)
Definition per_sr_to_per_mas2 : float := 0x1.b19488f43ce29p-56%float.

(** erg / (cm2 Hz s) in Jy: the factor of [.to(u.Jy)] (1e23). *)
Definition cgs_to_Jy : float := 0x1.52d02c7e14af6p+76%float.

Definition flux_per_pixel (wavelength : float)
  (temperature_distribution optical_depth : list float) (pixel_size : float)
  : result (list float) :=
  radiance <- BlackBody temperature_distribution wavelength ;;
  let spectral_radiance :=
    map (fun b => (b * per_sr_to_per_mas2)%float) radiance in
  let flux_per_pixel :=
    map (fun b => (b * (pixel_size * pixel_size))%float) spectral_radiance in
  Np.broadcast2 PrimFloat.mul
    (map (fun f => (f * cgs_to_Jy)%float) flux_per_pixel)
    (map (fun tau => (1 - Np.exp exp_ordinary (- tau))%float) optical_depth).

End WithLibrary.

(** The entries of an array that are NaN or infinite. *)
Definition degenerate (x : float) : bool := Fl.isnan x || Fl.isinf x.

End Profiles.

(** ** utils.py: the sublimation radius and temperature

    Both conversions come from the Stefan-Boltzmann balance; they are read
    over the real numbers, with temperatures in K, distances in pc,
    luminosities in W, lengths in m and angles in the unit they carry. *)

Module Sublimation.

Local Open Scope R_scope.

(** [c.sigma_sb], in W / (m2 K4). *)
Definition sigma_sb : R := 5.670374419e-8.

(** [(1*u.rad).to(u.mas)]: one radian in milliarcseconds. *)
Definition rad_in_mas : R := 648000000 / PI.

(** One parsec in metres, the factor of [distance.to(u.m)]. *)
Definition pc_in_m : R := 30856775814913673.

Inductive angular_unit : Type := Mas | Arcsec | Deg | Rad.

Record Angle : Type := { magnitude : R; unit : angular_unit }.

(** Returns milliarcseconds. *)
Definition _convert_orbital_radius_to_parallax (orbital_radius distance : R)
  : R :=
  rad_in_mas * (orbital_radius / (distance * pc_in_m)).

(** Takes milliarcseconds, returns metres. *)
Definition _convert_parallax_to_orbital_radius (parallax distance : R) : R :=
  (parallax * (distance * pc_in_m)) / rad_in_mas.

Definition _calculate_inner_radius (inner_temperature distance luminosity_star : R)
  : Angle :=
  let radius :=
    R_sqrt.sqrt (luminosity_star / (4 * PI * sigma_sb * inner_temperature ^ 4)) in
  {| magnitude := _convert_orbital_radius_to_parallax radius distance;
     unit := Mas |}.

(** The radius is converted to metres only when its unit is exactly mas;
    with another angular unit the fourth root is no temperature and the
    conversion of the result to K fails. *)
Definition _calculate_inner_temperature (inner_radius : Angle)
  (distance luminosity_star : R) : result R :=
  match unit inner_radius with
  | Mas =>
      let inner_radius :=
        _convert_parallax_to_orbital_radius (magnitude inner_radius) distance in
      Ok (Rpower (luminosity_star / (4 * PI * sigma_sb * inner_radius ^ 2))
                 (1 / 4))
  | _ => Raise UnitConversionError
  end.

End Sublimation.

(** ** utils.py: the sublimation radius and temperature, in float64

    The same two functions as the program computes them: on floats, in
    the order of the operations of the source, with the unit conversions
    as the factors astropy multiplies by. *)

Module SublimationFloat.

(** [np.pi]; [c.sigma_sb] in W / (m2 K4) (5.670374419e-08); one radian in
    milliarcseconds, the factor of [(1*u.rad).to(u.mas)]
    (206264806.2470964); one parsec in metres, the factor of
    [distance.to(u.m)] (3.0856775814913674e16). *)
Definition pi : float := 0x1.921fb54442d18p+1%float.
Definition sigma_sb : float := 0x1.e714da268c0ccp-25%float.
Definition rad_in_mas : float := 0x1.896b3cc7e836ap+27%float.
Definition pc_in_m : float := 0x1.b6804be5727a2p+54%float.

Record Angle : Type :=
  { magnitude : float; unit : Sublimation.angular_unit }.

Section WithLibrary.

(** The library's value of [np.power] on ordinary operands. *)
Variable pow_ordinary : float -> float -> float.

(** Returns milliarcseconds. *)
Definition _convert_orbital_radius_to_parallax
  (orbital_radius distance : float) : float :=
  (rad_in_mas * (orbital_radius / (distance * pc_in_m)))%float.

(** Takes milliarcseconds, returns metres. *)
Definition _convert_parallax_to_orbital_radius
  (parallax distance : float) : float :=
  ((parallax * (distance * pc_in_m)) / rad_in_mas)%float.

Definition _calculate_inner_radius
  (inner_temperature distance luminosity_star : float) : Angle :=
  let radius :=
    PrimFloat.sqrt
      (luminosity_star
       / (4 * pi * sigma_sb * Np.power pow_ordinary inner_temperature 4))%float
  in
  {| magnitude := _convert_orbital_radius_to_parallax radius distance;
     unit := Sublimation.Mas |}.

(** [inner_radius**2] is numpy's square, the product of the radius with
    itself; the exponent [1/4] is the float 0.25. *)
Definition _calculate_inner_temperature (inner_radius : Angle)
  (distance luminosity_star : float) : result float :=
  match unit inner_radius with
  | Sublimation.Mas =>
      let inner_radius :=
        _convert_parallax_to_orbital_radius (magnitude inner_radius) distance in
      Ok (Np.power pow_ordinary
            (luminosity_star
             / (4 * pi * sigma_sb * (inner_radius * inner_radius)))%float
            0.25%float)
  | _ => Raise UnitConversionError
  end.

End WithLibrary.

End SublimationFloat.

(** ** functionality/model_base.py: the base [Model] class *)

Module ModelBase.

(** *** Python values and names *)

Inductive number : Type :=
| Int (z : Z)
| Float (x : float).

(** A number, a quantity (its magnitude and the units multiplied onto it,
    in order), [None], or an object of the module's name space. *)
Inductive value : Type :=
| VNone
| VNumber (n : number)
| VQuantity (magnitude : number) (units : list string)
| VObject (name : string).

(** The float nearest to an integer, ties to even; infinite when the
    integer is beyond the floats. *)
Definition nearest_float (z : Z) : float :=
  SF2Prim (binary_normalize prec emax z 0 false).

(** The conversion of a Python int to float64, as a quantity makes it of
    its value: an int beyond the floats raises [OverflowError]. *)
Definition float_of_int (z : Z) : result float :=
  let x := nearest_float z in
  if PrimFloat.is_infinity x then Raise OverflowError else Ok x.

(** [v * u.<unit>]: a number becomes a quantity, whose magnitude is a
    float. *)
Definition mul_unit (v : value) (unit : string) : result value :=
  match v with
  | VNumber (Int z) => x <- float_of_int z ;; Ok (VQuantity (Float x) [unit])
  | VNumber (Float x) => Ok (VQuantity (Float x) [unit])
  | VQuantity n units => Ok (VQuantity n (units ++ [unit]))
  | VNone | VObject _ => Raise TypeError
  end.

(** The instance dictionary: the latest binding of a name comes first. *)
Definition obj : Type := list (string * value).

Definition setattr (self : obj) (name : string) (v : value) : obj :=
  (name, v) :: self.

Fixpoint lookup (bindings : list (string * value)) (name : string)
  : option value :=
  match bindings with
  | [] => None
  | (k, v) :: rest => if String.eqb k name then Some v else lookup rest name
  end.

Definition getattr (self : obj) (name : string) : result value :=
  match lookup self name with
  | Some v => Ok v
  | None => Raise (AttributeError name)
  end.

(** The names bound at the top level of model_base.py: its imports and the
    class it defines. *)
Definition module_globals : list string :=
  ["inspect"; "np"; "u"; "c"; "models"; "Quantity"; "List"; "Union";
   "Optional"; "Model"]%string.

(** The names of Python's [builtins] module. *)
Definition builtins : list string :=
  ["abs"; "aiter"; "all"; "anext"; "any"; "ascii"; "bin"; "bool";
   "breakpoint"; "bytearray"; "bytes"; "callable"; "chr"; "classmethod";
   "compile"; "complex"; "copyright"; "credits"; "delattr"; "dict"; "dir";
   "divmod"; "enumerate"; "eval"; "exec"; "exit"; "filter"; "float";
   "format"; "frozenset"; "getattr"; "globals"; "hasattr"; "hash"; "help";
   "hex"; "id"; "input"; "int"; "isinstance"; "issubclass"; "iter"; "len";
   "license"; "list"; "locals"; "map"; "max"; "memoryview"; "min"; "next";
   "object"; "oct"; "open"; "ord"; "pow"; "print"; "property"; "quit";
   "range"; "repr"; "reversed"; "round"; "set"; "setattr"; "slice"; "sorted";
   "staticmethod"; "str"; "sum"; "super"; "tuple"; "type"; "vars"; "zip";
   "__import__"; "__build_class__"; "__debug__"; "__doc__"; "__loader__";
   "__name__"; "__package__"; "__spec__"; "True"; "False"; "None";
   "Ellipsis"; "NotImplemented"; "ArithmeticError"; "AssertionError";
   "AttributeError"; "BaseException"; "BlockingIOError"; "BrokenPipeError";
   "BufferError"; "BytesWarning"; "ChildProcessError";
   "ConnectionAbortedError"; "ConnectionError"; "ConnectionRefusedError";
   "ConnectionResetError"; "DeprecationWarning"; "EOFError";
   "EncodingWarning"; "EnvironmentError"; "Exception"; "FileExistsError";
   "FileNotFoundError"; "FloatingPointError"; "FutureWarning";
   "GeneratorExit"; "IOError"; "ImportError"; "ImportWarning";
   "IndentationError"; "IndexError"; "InterruptedError"; "IsADirectoryError";
   "KeyError"; "KeyboardInterrupt"; "LookupError"; "MemoryError";
   "ModuleNotFoundError"; "NameError"; "NotADirectoryError";
   "NotImplementedError"; "OSError"; "OverflowError";
   "PendingDeprecationWarning"; "PermissionError"; "ProcessLookupError";
   "RecursionError"; "ReferenceError"; "ResourceWarning"; "RuntimeError";
   "RuntimeWarning"; "StopAsyncIteration"; "StopIteration"; "SyntaxError";
   "SyntaxWarning"; "SystemError"; "SystemExit"; "TabError"; "TimeoutError";
   "TypeError"; "UnboundLocalError"; "UnicodeDecodeError";
   "UnicodeEncodeError"; "UnicodeError"; "UnicodeTranslateError";
   "UnicodeWarning"; "UserWarning"; "ValueError"; "Warning";
   "ZeroDivisionError"]%string.

(** Reading a name inside a method: the local variables, then the module,
    then the builtins; [NameError] when none binds it. *)
Definition load_name (locals : list (string * value)) (name : string)
  : result value :=
  match lookup locals name with
  | Some v => Ok v
  | None =>
      if existsb (String.eqb name) module_globals
         || existsb (String.eqb name) builtins
      then Ok (VObject name)
      else Raise (NameError name)
  end.

(** *** The constructor *)

(** An argument tuple of [Model.__init__], by the declared types:
    numbers or quantities, and an optional [pixel_sampling]. *)
Inductive numeric : Type :=
| Plain (n : number)
| Quantity (magnitude : number) (units : list string).

Definition value_of (a : numeric) : value :=
  match a with
  | Plain n => VNumber n
  | Quantity n units => VQuantity n units
  end.

(** The argument can be given a unit: it is a quantity, a float, or an
    int that has a float. *)
Definition takes_unit (a : numeric) : bool :=
  match a with
  | Plain (Int z) => negb (PrimFloat.is_infinity (nearest_float z))
  | _ => true
  end.

Record InitArgs : Type :=
  { field_of_view : numeric;
    image_size : numeric;
    sublimation_temperature : numeric;
    effective_temperature : numeric;
    luminosity_star : numeric;
    distance : numeric;
    wavelength : numeric;
    pixel_sampling : option numeric }.

Definition init_locals (a : InitArgs) : list (string * value) :=
  [("field_of_view", value_of (field_of_view a));
   ("image_size", value_of (image_size a));
   ("sublimation_temperature", value_of (sublimation_temperature a));
   ("effective_temperature", value_of (effective_temperature a));
   ("luminosity_star", value_of (luminosity_star a));
   ("distance", value_of (distance a));
   ("wavelength", value_of (wavelength a));
   ("pixel_sampling",
    match pixel_sampling a with Some n => value_of n | None => VNone end)
  ]%string.

(** [self.<attr> = <name>*u.<unit>] *)
Definition assign_with_unit (locals : list (string * value)) (self : obj)
  (attr name unit : string) : result obj :=
  v <- load_name locals name ;;
  q <- mul_unit v unit ;;
  Ok (setattr self attr q).

Section Init.

(** Lines 45-49 of the constructor, the stellar radius and flux computed
    through helper functions: what they do to the instance. *)
Variable stellar_setup : obj -> result obj.

(** [Model.__init__], statement by statement, on a fresh instance. *)
Definition Model_init (a : InitArgs) : result obj :=
  let locals := init_locals a in
  let self := setattr [] "name" VNone in
  let self := setattr self "axes_image" VNone in
  let self := setattr self "axes_complex_image" VNone in
  let self := setattr self "polar_angle" VNone in
  self <- assign_with_unit locals self "field_of_view" "field_of_view" "mas" ;;
  self <- assign_with_unit locals self
            "image_size" "image_size" "dimensionless_unscaled" ;;
  p <- load_name locals "pixel_sampling" ;;
  sampling <- match p with
              | VNone => getattr self "image_size"
              | _ => load_name locals "pixel_sampling"
              end ;;
  let self := setattr self "pixel_sampling" sampling in
  self <- assign_with_unit locals self
            "sublimation_temperature" "sublimation_temperature" "K" ;;
  self <- assign_with_unit locals self
            "effective_temperature" "effective_temperature" "K" ;;
  self <- assign_with_unit locals self
            "luminosity_star" "luminostiy_star" "L_sun" ;;
  self <- assign_with_unit locals self "distance" "distance" "pc" ;;
  self <- assign_with_unit locals self "wavelength" "wavelength" "um" ;;
  stellar_setup self.

(** [Model(...)]: a new instance, initialised; an exception of the
    constructor leaves no instance. *)
Definition Model_call (a : InitArgs) : result obj := Model_init a.

End Init.

(** *** The image grid *)

(** The units [pos_angle] goes through in [set_grid]. *)
Inductive angle_unit : Type :=
| Deg
| Rad
| Times (a b : angle_unit).

Record Angle : Type := { magnitude : float; unit : angle_unit }.

(** pi / 180, the factor of astropy's conversion from deg to rad
    (0.017453292519943295). *)
Definition deg_in_rad : float := 0x1.1df46a2529d39p-6%float.

(** [x*u.deg] for a number and for a quantity. *)
Definition number_times_deg (x : float) : Angle :=
  {| magnitude := x; unit := Deg |}.

Definition angle_times_deg (q : Angle) : Angle :=
  {| magnitude := magnitude q; unit := Times (unit q) Deg |}.

(** [q.to(u.rad)]: a product of two angles is no angle. *)
Definition to_rad (q : Angle) : result Angle :=
  match unit q with
  | Deg => Ok {| magnitude := (magnitude q * deg_in_rad)%float; unit := Rad |}
  | Rad => Ok q
  | Times _ _ => Raise UnitConversionError
  end.

(** A bare number compared with a quantity that has a unit: astropy takes
    it in the quantity's unit when it is zero, infinite or NaN, and raises
    [UnitConversionError] otherwise. *)
Definition can_have_arbitrary_unit (n : float) : bool :=
  (n =? 0)%float || negb (PrimFloat.is_finite n).

(** [q > n] and [q < n] *)
Definition angle_gt (q : Angle) (n : float) : result bool :=
  if can_have_arbitrary_unit n then Ok (n <? magnitude q)%float
  else Raise UnitConversionError.

Definition angle_lt (q : Angle) (n : float) : result bool :=
  if can_have_arbitrary_unit n then Ok (magnitude q <? n)%float
  else Raise UnitConversionError.

(** The [try] block of [set_grid]: the list is unpacked into two names and
    the angle converted; the bare [except] turns any exception into
    [IOError]. *)
Definition unpack_incline_params (incline_params : list float)
  : result (float * Angle) :=
  match incline_params with
  | [axis_ratio; pos_angle] =>
      match to_rad (number_times_deg pos_angle) with
      | Ok q => Ok (axis_ratio, q)
      | Raise _ => Raise IOError
      end
  | _ => Raise IOError
  end.

Section SetGrid.

(** The numerical grid is the instance's and the array library's: [radius]
    without inclination (lines 213-215 and 240-243), and with the rotation
    by [pos_angle] and the compression by [axis_ratio] (lines 235-238). *)
Variable grid : Type.
Variable plain_grid : grid.
Variable inclined_grid : float -> Angle -> grid.

Definition set_grid (incline_params : option (list float)) : result grid :=
  match incline_params with
  | None | Some [] => Ok plain_grid
  | Some params =>
      ap <- unpack_incline_params params ;;
      let axis_ratio := fst ap in
      let pos_angle := snd ap in
      if (axis_ratio <? 1)%float then Raise ValueError
      else
        above <- angle_gt pos_angle 0 ;;
        inside <- (if above then angle_lt pos_angle 180 else Ok false) ;;
        if inside then Raise ValueError
        else
          pos_angle <- to_rad (angle_times_deg pos_angle) ;;
          Ok (inclined_grid axis_ratio pos_angle)
  end.

End SetGrid.

Arguments set_grid {grid} plain_grid inclined_grid incline_params.

(** Line 162 of [_get_flux]:
    [flux[np.where(np.isnan(flux))], flux[np.where(np.isinf(flux))] = 0., 0.] *)
Definition zero_nan_and_inf (flux : list float) : list float :=
  map (fun f => if Fl.isinf f then 0%float else f)
      (map (fun f => if Fl.isnan f then 0%float else f) flux).

End ModelBase.

(** ** readout.py: the observation bundle *)

Module Readout.

(** One row of the OI_T3 table, with the columns the closure-phase
    coordinates are read from (metres). *)
Record T3Row : Type :=
  { u1coord : float; v1coord : float; u2coord : float; v2coord : float }.

(** What the embedded methods of [ReadoutFits] read: the wavelength
    solution (micrometres) set by the constructor, and the OI_T3 table of
    the file. *)
Record ReadoutFits : Type :=
  { wavelength_solution : list float; oi_t3 : list T3Row }.

(** [get_data("oi_t3", name)]: one column of the table. *)
Definition get_data_t3 (self : ReadoutFits) (column : T3Row -> float)
  : list float :=
  map column (oi_t3 self).

(** [get_closures_phase_uvcoords_split]: [([u1, u2, u3], [v1, v2, v3])]. *)
Definition get_closures_phase_uvcoords_split (self : ReadoutFits)
  : list (list float) * list (list float) :=
  let u1 := get_data_t3 self u1coord in
  let v1 := get_data_t3 self v1coord in
  let u2 := get_data_t3 self u2coord in
  let v2 := get_data_t3 self v2coord in
  let u3 := Np.add u1 u2 in
  let v3 := Np.add v1 v2 in
  ([u1; u2; u3], [v1; v2; v3]).

(** The alternative the source has commented out:
    [u3, v3 = -(u1+u2), -(v1+v2)]. *)
Definition negated_third_leg (row : T3Row) : float * float :=
  ((- (u1coord row + u2coord row))%float, (- (v1coord row + v2coord row))%float).

(** The indices of the wavelength solution selected by one window, given
    by its two bounds: [np.where(np.logical_and(solution > bot,
    solution < top))[0].tolist()]. *)
Definition window_indices (solution : list float) (bot top : float) : list nat :=
  Np.where_ (Np.logical_and (map (fun s => (bot <? s)%float) solution)
                            (map (fun s => (s <? top)%float) solution)).

(** [get_wavelength_indices(wavelengths, wavelength_window_sizes)], both
    lists in micrometres.  The [np.repeat] of the source is evaluated and
    dropped, so shapes that differ are left to broadcasting. *)
Definition get_wavelength_indices (self : ReadoutFits)
  (wavelengths wavelength_window_sizes : list float)
  : result (list (list nat)) :=
  let half := map (fun w => (w / 2)%float) wavelength_window_sizes in
  window_top_bound <- Np.broadcast2 PrimFloat.add wavelengths half ;;
  window_bot_bound <- Np.broadcast2 PrimFloat.sub wavelengths half ;;
  Ok (map (fun bt => window_indices (wavelength_solution self) (fst bt) (snd bt))
          (combine window_bot_bound window_top_bound)).

(** The selection the closed interval
    [[target - width/2, target + width/2]] would make. *)
Definition closed_window_indices (solution : list float) (target width : float)
  : list nat :=
  Np.where_ (map (fun s => (target - width / 2 <=? s)%float
                           && (s <=? target + width / 2)%float) solution).

End Readout.

(** ** readout.py: baselines and closure-phase coordinates *)

Module ReadoutUV.

Import Readout.

(** One row of the OI_VIS table, with its two coordinate columns
    (metres). *)
Record VisRow : Type := { ucoord : float; vcoord : float }.

(** [get_split_uvcoords]: the two columns of the table. *)
Definition get_split_uvcoords (oi_vis : list VisRow) : list float * list float :=
  (map ucoord oi_vis, map vcoord oi_vis).

(** [np.sqrt(ucoords**2 + vcoords**2)], entry by entry. *)
Definition lengths (ucoords vcoords : list float) : list float :=
  map (fun uv => sqrt (fst uv * fst uv + snd uv * snd uv)%float)
      (combine ucoords vcoords).

Definition get_baselines (oi_vis : list VisRow) : list float :=
  let ucoords := fst (get_split_uvcoords oi_vis) in
  let vcoords := snd (get_split_uvcoords oi_vis) in
  lengths ucoords vcoords.

(** The loop of [get_closures_phase_uvcoords]:
    [uv_coords[index] = np.stack((ucoord, vcoords[index]), axis=1)] for
    [index, ucoord in enumerate(ucoords)]. *)
Fixpoint stack_legs (index : nat) (ucoords vcoords : list (list float))
  : result (list (list (float * float))) :=
  match ucoords with
  | [] => Ok []
  | ucoord :: rest =>
      vcoord <- getitem vcoords index ;;
      stacked <- stack_legs (S index) rest vcoords ;;
      Ok (combine ucoord vcoord :: stacked)
  end.

Definition get_closures_phase_uvcoords (self : ReadoutFits)
  : result (list (list (float * float))) :=
  let ucoords := fst (get_closures_phase_uvcoords_split self) in
  let vcoords := snd (get_closures_phase_uvcoords_split self) in
  stack_legs 0 ucoords vcoords.

(** [get_closure_phases_baselines]: one array of lengths per leg. *)
Definition get_closure_phases_baselines (self : ReadoutFits)
  : list (list float) :=
  let ucoords := fst (get_closures_phase_uvcoords_split self) in
  let vcoords := snd (get_closures_phase_uvcoords_split self) in
  map (fun uv => lengths (fst uv) (snd uv)) (combine ucoords vcoords).

(** A baseline seen from its other end. *)
Definition reversed (row : VisRow) : VisRow :=
  {| ucoord := (- ucoord row)%float; vcoord := (- vcoord row)%float |}.

End ReadoutUV.

(** ** utils.py: the star, over the real numbers *)

Module Stellar.

Import Sublimation.
Local Open Scope R_scope.

Definition _calculate_stellar_radius (luminosity_star effective_temperature : R)
  : R :=
  R_sqrt.sqrt
    (luminosity_star / (4 * PI * sigma_sb * effective_temperature ^ 4)).

Section WithPlanck.

(** Planck's law as astropy's [BlackBody] evaluates it: the spectral
    radiance at a wavelength and a temperature, in erg / (cm2 Hz s sr). *)
Variable planck : R -> R -> R.

(** [stellar_flux]: the radiance is taken per mas^2 (one steradian is
    [rad_in_mas ^ 2] mas^2), multiplied by the solid angle of the stellar
    disc and converted to Jy (a factor 1e23).  [BlackBody] refuses a
    negative temperature when it is evaluated. *)
Definition stellar_flux
  (wavelength effective_temperature distance luminosity_star : R) : result R :=
  if Rlt_dec effective_temperature 0 then Raise ValueError
  else
    let spectral_radiance :=
      planck wavelength effective_temperature / rad_in_mas ^ 2 in
    let stellar_radius :=
      _calculate_stellar_radius luminosity_star effective_temperature in
    let stellar_radius_angular :=
      _convert_orbital_radius_to_parallax stellar_radius distance in
    Ok (spectral_radiance * PI * stellar_radius_angular ^ 2 * 1e23).

End WithPlanck.

End Stellar.

(** ** utils.py: [IterNamespace] and the parameter name spaces *)

Module Namespace.

(** [l[i]] for a Python integer: a negative index counts from the end. *)
Definition getitem_int {A : Type} (l : list A) (i : Z) : result A :=
  let n := Z.of_nat (List.length l) in
  let j := if (i <? 0)%Z then (i + n)%Z else i in
  if (j <? 0)%Z || (n <=? j)%Z then Raise IndexError
  else getitem l (Z.to_nat j).

(** The characters of a string, as [zip] iterates over it. *)
Fixpoint characters (s : string) : list string :=
  match s with
  | EmptyString => []
  | String c rest => String c EmptyString :: characters rest
  end.

Section WithValues.

Variable V : Type.

(** [isinstance(value, list)]: the elements of a value that is a list. *)
Variable as_list : V -> option (list V).

(** [d[key] = v] on a dictionary in insertion order *)
Fixpoint setitem (d : list (string * V)) (key : string) (v : V)
  : list (string * V) :=
  match d with
  | [] => [(key, v)]
  | (k, old) :: rest =>
      if String.eqb k key then (k, v) :: rest
      else (k, old) :: setitem rest key v
  end.

(** [dict(zip(keys, values))] *)
Definition dict_zip (keys : list string) (values : list V)
  : list (string * V) :=
  fold_left (fun d kv => setitem d (fst kv) (snd kv)) (combine keys values) [].

(** An instance: the tuple it keeps in [_fields], and the other entries of
    its [__dict__] in insertion order.  The entry of [_fields] itself has
    a name with a leading underscore, which [__iter__] skips. *)
Record IterNamespace : Type :=
  { _fields : list string;
    __dict__ : list (string * V) }.

(** The constructor on its keyword arguments.  Its first parameter is
    [self], so a keyword of that name is a second value for it and the
    call raises [TypeError].  [_fields] is taken from the keys before it
    is stored; a keyword of that name is replaced by the tuple. *)
Definition IterNamespace_init (kwargs : list (string * V))
  : result IterNamespace :=
  if existsb (String.eqb "self") (map fst kwargs) then Raise TypeError
  else
    Ok {| _fields := map fst kwargs;
          __dict__ :=
            filter (fun kv => negb (String.eqb (fst kv) "_fields")) kwargs |}.

Definition __len__ (self : IterNamespace) : nat := List.length (_fields self).

Definition hidden (attr : string) : bool :=
  String.prefix "__" attr || String.prefix "_" attr.

Definition __iter__ (self : IterNamespace) : list V :=
  map snd (filter (fun kv => negb (hidden (fst kv))) (__dict__ self)).

(** What [__getitem__] returns for an integer: the value, or for a value
    that is a list a new name space. *)
Inductive item : Type :=
| Plain (v : V)
| Nested (ns : IterNamespace).

Definition __getitem__ (self : IterNamespace) (__index : Z) : result item :=
  keys <- getitem_int (_fields self) __index ;;
  values <- getitem_int (__iter__ self) __index ;;
  match as_list values with
  | Some elements =>
      ns <- IterNamespace_init (dict_zip (characters keys) elements) ;;
      Ok (Nested ns)
  | None => Ok (Plain values)
  end.

End WithValues.

Arguments _fields {V} _.
Arguments __dict__ {V} _.
Arguments IterNamespace_init {V} _.
Arguments __len__ {V} _.
Arguments __iter__ {V} _.
Arguments __getitem__ {V} _ _ _.
Arguments dict_zip {V} _ _.
Arguments setitem {V} _ _ _.
Arguments Plain {V} _.
Arguments Nested {V} _.

Section Parameters.

(** astropy's units.  The parameters are floats and the priors lists of
    floats, as the signatures declare them: the product of a float and a
    unit is the quantity of that value. *)
Variable unit : Type.

(** [[x*units[i] for i, x in enumerate(xs)]], from index [i] on *)
Fixpoint with_units {A : Type} (i : nat) (xs : list A) (units : list unit)
  : result (list (A * unit)) :=
  match xs with
  | [] => Ok []
  | x :: rest =>
      unit_i <- getitem units i ;;
      quantities <- with_units (S i) rest units ;;
      Ok ((x, unit_i) :: quantities)
  end.

Definition _make_params
  (params : list float) (units : list unit) (labels : list string)
  : result (IterNamespace (float * unit)) :=
  params <- with_units 0 params units ;;
  IterNamespace_init (dict_zip labels params).

Definition _make_priors
  (priors : list (list float)) (units : list unit) (labels : list string)
  : result (IterNamespace (list float * unit)) :=
  priors <- with_units 0 priors units ;;
  IterNamespace_init (dict_zip labels priors).

End Parameters.

Arguments with_units {unit A} _ _ _.
Arguments _make_params {unit} _ _ _.
Arguments _make_priors {unit} _ _ _.

(** The keyword [self] is among the labels that get a value. *)
Definition names_self {A : Type} (labels : list string) (values : list A)
  : bool :=
  existsb (String.eqb "self") (firstn (List.length values) labels).

(** *** The fixed parameters *)

Inductive Unit : Type :=
| u_mas
| u_dimensionless_unscaled
| u_K
| u_pc
| u_W
| u_other (name : string).

(** [unit == other] *)
Definition Unit_eqb (a b : Unit) : bool :=
  match a, b with
  | u_mas, u_mas | u_dimensionless_unscaled, u_dimensionless_unscaled
  | u_K, u_K | u_pc, u_pc | u_W, u_W => true
  | u_other x, u_other y => String.eqb x y
  | _, _ => false
  end.

(** The keys of [fixed_param_dict]: they are fixed by the literal list, so
    the dictionary is a value for each of them. *)
Inductive key : Type :=
| fov
| image_size
| sub_temp
| eff_temp
| distance
| lum_star
| pixel_sampling.

Definition key_eqb (a b : key) : bool :=
  match a, b with
  | fov, fov | image_size, image_size | sub_temp, sub_temp
  | eff_temp, eff_temp | distance, distance | lum_star, lum_star
  | pixel_sampling, pixel_sampling => true
  | _, _ => false
  end.

Definition key_name (k : key) : string :=
  match k with
  | fov => "fov"
  | image_size => "image_size"
  | sub_temp => "sub_temp"
  | eff_temp => "eff_temp"
  | distance => "distance"
  | lum_star => "lum_star"
  | pixel_sampling => "pixel_sampling"
  end.

Definition keys : list key :=
  [fov; image_size; sub_temp; eff_temp; distance; lum_star; pixel_sampling].

Definition units : list Unit :=
  [u_mas; u_dimensionless_unscaled; u_K; u_K; u_pc; u_W;
   u_dimensionless_unscaled].

(** An argument, by the declared types: a bare Python int, or a quantity
    with its magnitude and unit. *)
Inductive numeric : Type :=
| Bare (n : Z)
| Quantity (magnitude : ModelBase.number) (unit : Unit).

(** [u.Quantity(n, unit=u.dimensionless_unscaled, dtype=int)]: the int
    is stored as a 64-bit integer, and an int outside their range raises
    [OverflowError]. *)
Definition int64 (n : Z) : bool := (- 2 ^ 63 <=? n)%Z && (n <? 2 ^ 63)%Z.

Definition as_int (n : Z) : result numeric :=
  if int64 n then Ok (Quantity (ModelBase.Int n) u_dimensionless_unscaled)
  else Raise OverflowError.

(** [n*unit]: the quantity of the float of [n]. *)
Definition times_unit (n : Z) (unit : Unit) : result numeric :=
  x <- ModelBase.float_of_int n ;;
  Ok (Quantity (ModelBase.Float x) unit).

(** [c.L_sun] in watt (3.828e26), and [n*c.L_sun]. *)
Definition L_sun : float := 0x1.3ca50d94d4d4fp+88%float.

Definition times_L_sun (n : Z) : result numeric :=
  x <- ModelBase.float_of_int n ;;
  Ok (Quantity (ModelBase.Float (x * L_sun)%float) u_W).

(** The dictionary; [None] is Python's [None]. *)
Definition fixed_dict : Type := key -> option numeric.

Definition set_key (d : fixed_dict) (k : key) (v : option numeric)
  : fixed_dict :=
  fun k' => if key_eqb k k' then v else d k'.

(** The body of the loop for the [i]-th item. *)
Definition fix_item (d : fixed_dict) (i : nat) (k : key)
  : result fixed_dict :=
  match d k with
  | Some (Quantity _ unit) =>
      expected <- getitem units i ;;
      if negb (Unit_eqb unit expected) then Raise IOError else Ok d
  | Some (Bare n) =>
      if key_eqb k image_size then
        q <- as_int n ;;
        Ok (set_key d k (Some q))
      else if key_eqb k pixel_sampling then
        q <- as_int n ;;
        Ok (set_key d k (Some q))
      else if key_eqb k lum_star then
        q <- times_L_sun n ;;
        Ok (set_key d k (Some q))
      else
        unit_i <- getitem units i ;;
        q <- times_unit n unit_i ;;
        Ok (set_key d k (Some q))
  | None =>
      if key_eqb k image_size then Raise TypeError
      else if key_eqb k pixel_sampling then Ok (set_key d k (d image_size))
      else Raise TypeError
  end.

(** [for i, (key, value) in enumerate(fixed_param_dict.items())] *)
Fixpoint fix_items (d : fixed_dict) (i : nat) (remaining : list key)
  : result fixed_dict :=
  match remaining with
  | [] => Ok d
  | k :: rest =>
      d <- fix_item d i k ;;
      fix_items d (S i) rest
  end.

Definition make_fixed_params
  (field_of_view image_size' sublimation_temperature effective_temperature
     distance' luminosity_star : numeric) (pixel_sampling' : option numeric)
  : result (IterNamespace (option numeric)) :=
  let fixed_param_dict : fixed_dict := fun k =>
    match k with
    | fov => Some field_of_view
    | image_size => Some image_size'
    | sub_temp => Some sublimation_temperature
    | eff_temp => Some effective_temperature
    | distance => Some distance'
    | lum_star => Some luminosity_star
    | pixel_sampling => pixel_sampling'
    end in
  fixed_param_dict <- fix_items fixed_param_dict 0 keys ;;
  IterNamespace_init (map (fun k => (key_name k, fixed_param_dict k)) keys).

(** An argument is a number, or a quantity in the unit of its place. *)
Definition fits_unit (unit : Unit) (value : numeric) : bool :=
  match value with
  | Bare _ => true
  | Quantity _ given => Unit_eqb given unit
  end.

(** A bare int has a float, or is a 64-bit integer. *)
Definition has_float (value : numeric) : bool :=
  match value with
  | Bare n => negb (PrimFloat.is_infinity (ModelBase.nearest_float n))
  | Quantity _ _ => true
  end.

Definition has_int64 (value : numeric) : bool :=
  match value with
  | Bare n => int64 n
  | Quantity _ _ => true
  end.

Definition unit_of (value : option numeric) : option Unit :=
  match value with
  | Some (Quantity _ unit) => Some unit
  | _ => None
  end.

End Namespace.

(** ** model_base.py: the grid of the (u, v) plane *)

Module UVGrid.

Import ModelBase.

(** The arguments of [set_uv_grid] are bound when it is called.  The names
    its body assigns ([axis], [u], [v], [axis_ratio], ...) are local to
    it too, and unbound until their assignment runs: reading one before
    raises UnboundLocalError, which is a NameError. *)
Definition load_fast (frame : list (string * value)) (name : string)
  : result value :=
  match lookup frame name with
  | Some v => Ok v
  | None => Raise (NameError name)
  end.

(** A name that the body never assigns is looked up in the module and in
    the builtins. *)
Definition load_global (name : string) : result value := load_name [] name.

Section SetUVGrid.

(** What the values do: [-value] and [value.<name>]. *)
Variable negative : value -> result value.
Variable attribute : value -> string -> result value.

(** The rest of the two branches and of the body, once the right-hand
    side of the first assignment has its operands. *)
Variable baselines : Type.
Variable grid_from_image :
  obj -> value -> value -> value -> value -> result baselines.
Variable grid_from_uvcoords :
  obj -> value -> value -> value -> value -> result baselines.

Definition set_uv_grid (self : obj) (incline_params uvcoords vector : value)
  : result baselines :=
  let frame :=
    [("incline_params", incline_params); ("uvcoords", uvcoords);
     ("vector", vector)]%string in
  uvcoords <- load_fast frame "uvcoords" ;;
  match uvcoords with
  | VNone =>
      np <- load_global "np" ;;
      linspace <- attribute np "linspace" ;;
      image_size <- getattr self "image_size" ;;
      start <- negative image_size ;;
      size <- load_global "size" ;;
      sampling <- load_global "sampling" ;;
      grid_from_image self linspace start size sampling
  | _ =>
      wavelength <- getattr self "wavelength" ;;
      to <- attribute wavelength "to" ;;
      u <- load_fast frame "u" ;;
      m <- attribute u "m" ;;
      grid_from_uvcoords self uvcoords to m incline_params
  end.

End SetUVGrid.

Arguments set_uv_grid _ _ {baselines} _ _ _ _ _ _.

End UVGrid.

(** ** model_base.py: the helper methods of [Model] *)

Module ModelHelpers.

Import ModelBase.
Import UVGrid.

Section Helpers.

(** The arithmetic of the helpers is the array library's and astropy's:
    the radius of the Stefan-Boltzmann law (lines 84 and 125), and what
    follows the call of the missing name in each method. *)
Variable radius_m : value -> value -> result value.
Variable divide : value -> value -> result value.
Variable call : value -> list value -> result value.
Variable temperature_from : value -> value -> value -> result value.
Variable flux_from : obj -> value -> list value -> result value.

(** [_stellar_radius_pc] *)
Definition _stellar_radius_pc (self : obj) (T_eff L_star : value)
  : result value :=
  stellar_radius_m <- radius_m L_star T_eff ;;
  PARSEC2M <- load_global "PARSEC2M" ;;
  divide stellar_radius_m PARSEC2M.

(** [_sublimation_temperature]: [r_sub /= m2mas(1, distance)] reads
    [r_sub], then the name of the function. *)
Definition _sublimation_temperature (self : obj) (r_sub L_star distance : value)
  : result value :=
  let frame :=
    [("r_sub", r_sub); ("L_star", L_star); ("distance", distance)]%string in
  r_sub <- load_fast frame "r_sub" ;;
  m2mas <- load_global "m2mas" ;;
  scale <- call m2mas [VNumber (Int 1); distance] ;;
  r_sub <- divide r_sub scale ;;
  temperature_from L_star r_sub distance.

(** [_sublimation_radius] *)
Definition _sublimation_radius (self : obj) (T_sub L_star distance : value)
  : result value :=
  sub_radius_m <- radius_m L_star T_sub ;;
  m2mas <- load_global "m2mas" ;;
  call m2mas [sub_radius_m; distance].

(** [_get_flux]: with an inner radius given, the first statement calls
    [sublimation_temperature]. *)
Definition _get_flux (self : obj) (tau_0 q p r_sub : value) : result value :=
  np <- load_global "np" ;;
  match r_sub with
  | VNone =>
      sub_temperature <- getattr self "_r_sub" ;;
      flux_from self sub_temperature [tau_0; q; p]
  | _ =>
      sublimation_temperature <- load_global "sublimation_temperature" ;;
      L_star <- getattr self "L_star" ;;
      d <- getattr self "d" ;;
      sub_temperature <- call sublimation_temperature [r_sub; L_star; d] ;;
      flux_from self sub_temperature [tau_0; q; p]
  end.

End Helpers.

End ModelHelpers.

(** * Properties *)

(** ** Float comparisons *)

Lemma SFcompare_antisym (a b : spec_float) :
  SFcompare b a = option_map CompOpp (SFcompare a b).
Proof.
  destruct a as [sa|sa| |sa ma ea], b as [sb|sb| |sb mb eb]; simpl;
    try reflexivity;
    try (destruct sa; reflexivity); try (destruct sb; reflexivity).
  - destruct sa, sb; reflexivity.
  - pose proof (Pos.compare_cont_antisym ma mb Eq) as H; simpl in H.
    rewrite (Z.compare_antisym ea eb), <- H.
    destruct sa, sb; try reflexivity;
      destruct (ea ?= eb)%Z; simpl; try reflexivity;
      destruct (Pos.compare_cont Eq ma mb); reflexivity.
Qed.

(** Comparisons of floats, read on their IEEE-754 values. *)
Ltac float_compare x y :=
  rewrite ?eqb_spec, ?ltb_spec; unfold SFeqb, SFltb;
  rewrite ?(SFcompare_antisym (Prim2SF x) (Prim2SF y));
  destruct (SFcompare (Prim2SF x) (Prim2SF y)) as [[]|]; simpl; congruence.

(** IEEE equality excludes strict order, in both directions. *)
Lemma eqb_not_ltb (x y : float) :
  (x =? y)%float = true -> (x <? y)%float = false.
Proof. float_compare x y. Qed.

Lemma eqb_not_gtb (x y : float) :
  (x =? y)%float = true -> (y <? x)%float = false.
Proof. float_compare x y. Qed.

Lemma ltb_asym (x y : float) :
  (x <? y)%float = true -> (y <? x)%float = false.
Proof. float_compare x y. Qed.

Lemma ltb_neq (x y : float) :
  (x <? y)%float = true -> (x =? y)%float = false.
Proof. float_compare x y. Qed.

Lemma SFcompare_refl (a : spec_float) :
  a <> S754_nan -> SFcompare a a = Some Eq.
Proof.
  destruct a as [s|s| |s m e]; simpl; intros H; try congruence.
  - now destruct s.
  - rewrite Z.compare_refl, Pos.compare_cont_refl. now destruct s.
Qed.

Lemma ltb_not_nan (x y : float) :
  (x <? y)%float = true ->
  PrimFloat.is_nan x = false /\ PrimFloat.is_nan y = false.
Proof.
  unfold PrimFloat.is_nan. rewrite !eqb_spec, ltb_spec. unfold SFeqb, SFltb.
  intros H.
  assert (Prim2SF x <> S754_nan /\ Prim2SF y <> S754_nan) as [Hx Hy].
  { destruct (Prim2SF x), (Prim2SF y); simpl in H; split; congruence. }
  now rewrite (SFcompare_refl _ Hx), (SFcompare_refl _ Hy).
Qed.

(** The shape of a float above zero. *)
Lemma positive_shape (x : float) :
  (0 <? x)%float = true ->
  Prim2SF x = S754_infinity false \/
  exists (m : positive) (e : Z), Prim2SF x = S754_finite false m e.
Proof.
  rewrite ltb_spec. change (Prim2SF 0) with (S754_zero false).
  unfold SFltb. destruct (Prim2SF x) as [s|s| |s m e]; simpl;
    try discriminate; destruct s; try discriminate; intros _.
  - now left.
  - right. now exists m, e.
Qed.

(** An operation on a float above zero, settled on the two shapes. *)
Ltac on_positive_shape H :=
  match type of H with
  | (0 <? ?x)%float = true =>
      change (Prim2SF 0) with (S754_zero false);
      change (Prim2SF infinity) with (S754_infinity false);
      destruct (positive_shape x H) as [->|[? [? ->]]]; reflexivity
  end.

Lemma zero_div_positive (x : float) :
  (0 <? x)%float = true -> (0 / x)%float = 0%float.
Proof.
  intros H. apply Prim2SF_inj. rewrite div_spec. on_positive_shape H.
Qed.

Lemma positive_mul_infinity (x : float) :
  (0 <? x)%float = true -> (x * infinity)%float = infinity.
Proof.
  intros H. apply Prim2SF_inj. rewrite mul_spec. on_positive_shape H.
Qed.

Lemma opp_positive (x : float) :
  (0 <? x)%float = true -> (- x <? 0)%float = true.
Proof.
  intros H. rewrite ltb_spec, opp_spec. on_positive_shape H.
Qed.

Lemma mul_nan_r (x : float) : (x * nan)%float = nan.
Proof.
  apply Prim2SF_inj. rewrite mul_spec.
  change (Prim2SF nan) with S754_nan. now destruct (Prim2SF x).
Qed.

(** ** The prior check of fitting_utils.py *)

Import Fitting.

Lemma strictly_within_eval (o : prior) (theta : list float) (i : nat) (x : float) :
  two_bounds o ->
  nth_error theta i = Some x ->
  strictly_within o theta i = Ok (strictly_inside o x).
Proof.
  unfold two_bounds, strictly_within, getitem.
  destruct o as [|lo [|hi rest]]; simpl; try lia.
  intros _ ->. simpl. now destruct (lo <? x)%float.
Qed.

(** One parameter that fails the test of the loop body is enough, wherever
    it stands: every entry before it is read without an [IndexError]. *)
Lemma lnprior_from_rejects (priors : list prior) :
  forall (k i : nat) (theta : list float) (o : prior) (x : float),
    Forall two_bounds priors ->
    nth_error priors i = Some o ->
    nth_error theta (k + i) = Some x ->
    strictly_inside o x = false ->
    lnprior_from k theta priors = Ok neg_infinity.
Proof.
  induction priors as [|p rest IH]; intros k i theta o x Hwf Hp Hx Hout.
  - now destruct i.
  - inversion Hwf as [|? ? Hp0 Hrest]; subst. destruct i as [|i]; simpl in Hp.
    + injection Hp as ->. rewrite Nat.add_0_r in Hx. simpl.
      rewrite (strictly_within_eval _ _ _ _ Hp0 Hx). simpl. now rewrite Hout.
    + assert (Hk : exists y, nth_error theta k = Some y).
      { destruct (nth_error theta k) as [y|] eqn:E; [now exists y|].
        apply nth_error_None in E.
        assert (nth_error theta (k + S i) <> None) as H by congruence.
        apply nth_error_Some in H. lia. }
      destruct Hk as [y Hy]. simpl.
      rewrite (strictly_within_eval _ _ _ _ Hp0 Hy). simpl.
      destruct (strictly_inside p y); simpl; [|reflexivity].
      apply (IH (S k) i theta o x Hrest Hp); [|exact Hout].
      now replace (S k + i) with (k + S i) by lia.
Qed.

(** With a parameter for every prior the loop is the conjunction of its
    tests. *)
Lemma lnprior_from_decides (priors : list prior) :
  forall (k : nat) (theta : list float),
    Forall two_bounds priors ->
    List.length priors + k <= List.length theta ->
    lnprior_from k theta priors =
    Ok (if all_strictly_inside (skipn k theta) priors
        then 0%float else neg_infinity).
Proof.
  induction priors as [|p rest IH]; intros k theta Hwf Hlen.
  - reflexivity.
  - inversion Hwf as [|? ? Hp0 Hrest]; subst. simpl in Hlen.
    destruct (nth_error theta k) as [y|] eqn:Hy.
    2:{ apply nth_error_None in Hy. lia. }
    assert (Hskip : skipn k theta = y :: skipn (S k) theta).
    { clear -Hy. revert theta Hy. induction k as [|k IHk]; intros [|a l] Hy;
        simpl in *; try discriminate.
      - now injection Hy as ->.
      - now apply IHk. }
    simpl. rewrite (strictly_within_eval _ _ _ _ Hp0 Hy). simpl.
    unfold all_strictly_inside in *. rewrite Hskip. simpl.
    destruct (strictly_inside p y); simpl; [|reflexivity].
    apply IH; [assumption | lia].
Qed.

Lemma strictly_outside_not_inside (o : prior) (x : float) :
  strictly_outside o x = true -> strictly_inside o x = false.
Proof.
  unfold strictly_outside, strictly_inside.
  destruct o as [|lo [|hi rest]]; try discriminate.
  intros H. apply orb_true_iff in H. apply andb_false_iff.
  destruct H as [H|H]; [left | right]; now apply ltb_asym.
Qed.

Lemma on_bound_not_inside (lo hi x : float) (rest : list float) :
  (x =? lo)%float = true \/ (x =? hi)%float = true ->
  strictly_inside (lo :: hi :: rest) x = false.
Proof.
  simpl. intros [H|H]; apply andb_false_iff.
  - left. now apply eqb_not_gtb.
  - right. now apply eqb_not_ltb.
Qed.

Section LnprobFacts.

Variable DataHandler : Type.
Variable priors : DataHandler -> list prior.
Variable lnlike : list float -> DataHandler -> result float.

(** C10. The prior check treats the bounds as exclusive: when some
    [theta[i]] equals the lower or the upper bound of [priors[i]], [lnprior]
    returns [-inf], and [lnprob] returns [-inf] as well, without evaluating
    the model. *)
Theorem lnprior_bounds_exclusive
  (theta : list float) (data : DataHandler)
  (i : nat) (lo hi x : float) (rest : list float) :
  Forall two_bounds (priors data) ->
  nth_error (priors data) i = Some (lo :: hi :: rest) ->
  nth_error theta i = Some x ->
  (x =? lo)%float = true \/ (x =? hi)%float = true ->
  lnprior theta (priors data) = Ok neg_infinity /\
  lnprob priors lnlike theta data = Run (Ok neg_infinity) [].
Proof.
  intros Hwf Hp Hx Hb.
  assert (H : lnprior theta (priors data) = Ok neg_infinity).
  { apply (lnprior_from_rejects (priors data) 0 i theta _ x Hwf Hp Hx).
    now apply on_bound_not_inside. }
  split; [exact H|]. unfold lnprob. now rewrite H.
Qed.

(** C2, as the code has it.  With a parameter for every prior, [lnprob]
    returns [-inf] whenever some parameter fails [lower < theta_i < upper]
    -- in particular whenever one lies strictly outside [[lower, upper]] --
    and then [lnlike] is not evaluated; when every parameter is strictly
    inside its bounds [lnprob] evaluates [lnlike] once, on [theta], and
    returns its value. *)
Theorem lnprob_prior_gate (theta : list float) (data : DataHandler) :
  Forall two_bounds (priors data) ->
  List.length (priors data) <= List.length theta ->
  (forall (i : nat) (o : prior) (x : float),
      nth_error (priors data) i = Some o ->
      nth_error theta i = Some x ->
      strictly_outside o x = true ->
      lnprob priors lnlike theta data = Run (Ok neg_infinity) []) /\
  (all_strictly_inside theta (priors data) = false ->
   lnprob priors lnlike theta data = Run (Ok neg_infinity) []) /\
  (all_strictly_inside theta (priors data) = true ->
   lnprob priors lnlike theta data = Run (lnlike theta data) [theta]).
Proof.
  intros Hwf Hlen. repeat split.
  - intros i o x Hp Hx Hout. unfold lnprob, lnprior.
    rewrite (lnprior_from_rejects (priors data) 0 i theta o x Hwf Hp Hx
               (strictly_outside_not_inside o x Hout)).
    reflexivity.
  - intros H. unfold lnprob, lnprior.
    rewrite (lnprior_from_decides (priors data) 0 theta Hwf) by lia.
    simpl skipn. now rewrite H.
  - intros H. unfold lnprob, lnprior.
    rewrite (lnprior_from_decides (priors data) 0 theta Hwf) by lia.
    simpl skipn. now rewrite H.
Qed.

End LnprobFacts.

Lemma lnprior_bounds_exclusive_witness :
  lnprior [0.5%float; 2%float] [[0%float; 1%float]; [1%float; 2%float]]
    = Ok neg_infinity /\
  lnprob (fun d : list prior => d) (fun _ _ => Ok 0%float)
    [0.5%float; 2%float] [[0%float; 1%float]; [1%float; 2%float]]
    = Run (Ok neg_infinity) [].
Proof.
  apply (lnprior_bounds_exclusive (list prior) (fun d => d) (fun _ _ => Ok 0%float)
           [0.5%float; 2%float] [[0%float; 1%float]; [1%float; 2%float]]
           1 1%float 2%float 2%float []).
  - repeat constructor.
  - reflexivity.
  - reflexivity.
  - right. reflexivity.
Defined.

Lemma lnprob_prior_gate_witness :
  (forall (i : nat) (o : prior) (x : float),
      nth_error [[0%float; 1%float]; [1%float; 2%float]] i = Some o ->
      nth_error [0.5%float; 2.5%float] i = Some x ->
      strictly_outside o x = true ->
      lnprob (fun d : list prior => d) (fun _ _ => Ok 0%float)
        [0.5%float; 2.5%float] [[0%float; 1%float]; [1%float; 2%float]]
      = Run (Ok neg_infinity) []) /\
  (all_strictly_inside [0.5%float; 2.5%float]
     [[0%float; 1%float]; [1%float; 2%float]] = false ->
   lnprob (fun d : list prior => d) (fun _ _ => Ok 0%float)
     [0.5%float; 2.5%float] [[0%float; 1%float]; [1%float; 2%float]]
   = Run (Ok neg_infinity) []) /\
  (all_strictly_inside [0.5%float; 2.5%float]
     [[0%float; 1%float]; [1%float; 2%float]] = true ->
   lnprob (fun d : list prior => d) (fun _ _ => Ok 0%float)
     [0.5%float; 2.5%float] [[0%float; 1%float]; [1%float; 2%float]]
   = Run (Ok 0%float) [[0.5%float; 2.5%float]]).
Proof.
  apply (lnprob_prior_gate (list prior) (fun d => d) (fun _ _ => Ok 0%float)
           [0.5%float; 2.5%float] [[0%float; 1%float]; [1%float; 2%float]]).
  - repeat constructor.
  - simpl. lia.
Defined.

(** C2, as stated, fails on a bound: [theta = [1.0]] lies inside
    [[1.0, 2.0]] and [lnlike] would return the finite value 0, yet [lnprob]
    returns [-inf]. *)
Lemma lnprob_on_bound_not_finite :
  ~ finite_when_inside (fun d : list prior => d) (fun _ _ => Ok 0%float)
      [1%float] [[1%float; 2%float]].
Proof.
  unfold finite_when_inside. intros H.
  destruct (H eq_refl) as [v [Hv Hfin]].
  vm_compute in Hv. injection Hv as <-. vm_compute in Hfin. discriminate.
Qed.

(** ** The read-out of readout.py *)

Import Readout.

Lemma where_from_In (mask : list bool) :
  forall k i : nat,
    In i (Np.where_from k mask) <->
    exists j : nat, i = k + j /\ nth_error mask j = Some true.
Proof.
  induction mask as [|b rest IH]; intros k i; simpl.
  - split; [tauto | intros [[|j] [_ H]]; discriminate].
  - assert (Hrest : In i (Np.where_from (S k) rest) <->
                    exists j, i = k + S j /\ nth_error rest j = Some true).
    { rewrite IH. split; intros [j [E H]]; exists j; split; auto; lia. }
    destruct b; simpl; rewrite ?Hrest; split.
    + intros [<-|[j [E H]]]; [exists 0 | exists (S j)]; split; auto; lia.
    + intros [[|j] [E H]]; [left; lia | right; exists j; auto].
    + intros [j [E H]]. exists (S j). auto.
    + intros [[|j] [E H]]; [discriminate | exists j; auto].
Qed.

Lemma where_from_sorted (mask : list bool) :
  forall k : nat, StronglySorted lt (Np.where_from k mask).
Proof.
  induction mask as [|b rest IH]; intros k; simpl.
  - constructor.
  - destruct b; [|apply IH]. constructor; [apply IH|].
    apply Forall_forall. intros i Hi.
    apply where_from_In in Hi. destruct Hi as [j [-> _]]. lia.
Qed.

Lemma logical_and_map {A : Type} (f g : A -> bool) (l : list A) :
  Np.logical_and (map f l) (map g l) = map (fun x => f x && g x) l.
Proof.
  unfold Np.logical_and. induction l as [|x l IH]; simpl; [reflexivity|].
  now rewrite IH.
Qed.

Lemma window_indices_In (solution : list float) (bot top : float) (i : nat) :
  In i (window_indices solution bot top) <->
  exists s : float,
    nth_error solution i = Some s /\
    (bot <? s)%float = true /\ (s <? top)%float = true.
Proof.
  unfold window_indices, Np.where_.
  rewrite logical_and_map, where_from_In. simpl. split.
  - intros [j [-> H]]. rewrite nth_error_map in H.
    destruct (nth_error solution j) as [x|]; [|discriminate].
    simpl in H. injection H as H. apply andb_true_iff in H.
    exists x. tauto.
  - intros [x [Hx [Hb Ht]]]. exists i. split; [reflexivity|].
    rewrite nth_error_map, Hx. simpl. now rewrite Hb, Ht.
Qed.

Lemma window_indices_sorted (solution : list float) (bot top : float) :
  StronglySorted lt (window_indices solution bot top).
Proof. apply where_from_sorted. Qed.

Lemma combine_maps {A B C : Type} (f : A -> B) (g : A -> C) (l : list A) :
  combine (map f l) (map g l) = map (fun x => (f x, g x)) l.
Proof.
  induction l as [|x l IH]; simpl; [reflexivity|]. now rewrite IH.
Qed.

Lemma broadcast2_shared {A B C : Type} (f : A -> B -> C) (xs : list A) (y : B) :
  Np.broadcast2 f xs [y] = Ok (map (fun x => f x y) xs).
Proof.
  unfold Np.broadcast2. destruct xs as [|x [|x' xs]]; reflexivity.
Qed.

(** One window width shared by a list of target wavelengths, the default
    call: one open window per target, in the order of the targets. *)
Lemma get_wavelength_indices_shared_window
  (self : ReadoutFits) (wavelengths : list float) (width : float) :
  get_wavelength_indices self wavelengths [width] =
  Ok (map (fun target =>
             window_indices (wavelength_solution self)
               (target - width / 2) (target + width / 2))
          wavelengths).
Proof.
  unfold get_wavelength_indices. cbn [map].
  rewrite !broadcast2_shared. cbn [bind].
  now rewrite combine_maps, map_map.
Qed.

(** C8, as the code has it.  For one target wavelength and one window
    width, [get_wavelength_indices] returns, in increasing order, exactly
    the indices of the wavelength solution whose value lies strictly
    between [target - width/2] and [target + width/2]: the window is the
    open interval. *)
Theorem get_wavelength_indices_open_window
  (self : ReadoutFits) (target width : float) :
  exists idx : list nat,
    get_wavelength_indices self [target] [width] = Ok [idx] /\
    (forall i : nat,
        In i idx <->
        exists s : float,
          nth_error (wavelength_solution self) i = Some s /\
          (target - width / 2 <? s)%float = true /\
          (s <? target + width / 2)%float = true) /\
    StronglySorted lt idx.
Proof.
  exists (window_indices (wavelength_solution self)
            (target - width / 2) (target + width / 2)).
  split; [reflexivity|]. split.
  - intros i. apply window_indices_In.
  - apply window_indices_sorted.
Qed.

(** C8, as stated, fails on the end points: with the solution
    [8.0, 8.5, 9.0], target 8.5 and width 1.0 the closed interval
    [[8.0, 9.0]] holds all three wavelengths, and the code selects the
    middle one only. *)
Lemma get_wavelength_indices_excludes_endpoints :
  get_wavelength_indices
    {| wavelength_solution := [8%float; 8.5%float; 9%float]; oi_t3 := [] |}
    [8.5%float] [1%float] = Ok [[1]] /\
  closed_window_indices [8%float; 8.5%float; 9%float] 8.5%float 1%float
    = [0; 1; 2] /\
  get_wavelength_indices
    {| wavelength_solution := [8%float; 8.5%float; 9%float]; oi_t3 := [] |}
    [8.5%float] [1%float]
  <> Ok [closed_window_indices [8%float; 8.5%float; 9%float] 8.5%float 1%float].
Proof. repeat split; try reflexivity. vm_compute. discriminate. Qed.

Lemma add_columns {A : Type} (f g : A -> float) (rows : list A) :
  Np.add (map f rows) (map g rows) = map (fun r => (f r + g r)%float) rows.
Proof.
  unfold Np.add. induction rows as [|r rows IH]; simpl; [reflexivity|].
  now rewrite IH.
Qed.

(** C6. For every closure-phase triangle (row of the OI_T3 table) with
    legs [(u1, v1)] and [(u2, v2)], the third leg computed by
    [get_closures_phase_uvcoords_split] is [(u1 + u2, v1 + v2)]: the three
    legs come back as [([u1, u2, u3], [v1, v2, v3])], row by row. *)
Theorem third_leg_is_sum (self : ReadoutFits) :
  get_closures_phase_uvcoords_split self =
  ([map u1coord (oi_t3 self);
    map u2coord (oi_t3 self);
    map (fun row => (u1coord row + u2coord row)%float) (oi_t3 self)],
   [map v1coord (oi_t3 self);
    map v2coord (oi_t3 self);
    map (fun row => (v1coord row + v2coord row)%float) (oi_t3 self)]).
Proof.
  unfold get_closures_phase_uvcoords_split, get_data_t3.
  now rewrite !add_columns.
Qed.

(** The negated convention, which the source leaves commented out, gives a
    different third leg: legs (1, 2) and (3, 4) sum to (4, 6), not
    (-4, -6). *)
Example third_leg_not_negated :
  let row := {| u1coord := 1; v1coord := 2; u2coord := 3; v2coord := 4 |} in
  get_closures_phase_uvcoords_split
    {| wavelength_solution := []; oi_t3 := [row] |}
  = ([[1%float]; [3%float]; [4%float]], [[2%float]; [4%float]; [6%float]])
  /\ negated_third_leg row = ((-4)%float, (-6)%float).
Proof. split; reflexivity. Qed.

(** ** The radiative profiles of utils.py *)

Import Profiles.

(** A zero base under a negative exponent: the pole of the power law. *)
Lemma power_zero_negative (ordinary : float -> float -> float) (y : float) :
  (y <? 0)%float = true -> Np.power ordinary 0 y = infinity.
Proof.
  intros Hy. unfold Np.power.
  rewrite (ltb_neq _ _ Hy).
  destruct (ltb_not_nan _ _ Hy) as [Hnan _]. rewrite Hnan, Hy.
  change (0 =? 1)%float with false. change (PrimFloat.is_nan 0) with false.
  change (0 =? 0)%float with true. change (Np.signbit 0) with false.
  simpl. now rewrite andb_false_r.
Qed.

Lemma PowerLaw1D_at_zero (ordinary : float -> float -> float)
  (amplitude x_0 alpha : float) :
  (0 <? alpha)%float = true ->
  (0 <? x_0)%float = true ->
  (0 <? amplitude)%float = true ->
  PowerLaw1D_evaluate ordinary 0 amplitude x_0 alpha = infinity.
Proof.
  intros Ha Hx Hamp. unfold PowerLaw1D_evaluate.
  rewrite (zero_div_positive _ Hx).
  rewrite (power_zero_negative _ _ (opp_positive _ Ha)).
  now apply positive_mul_infinity.
Qed.








(** Radius 0 with a vanishing inner value is not covered by the
    replacement of [+inf]: [0 * inf] is NaN and stays. *)
Example optical_depth_gradient_nan :
  optical_depth_gradient (fun _ _ => 1%float) [0%float] 0.5%float 4%float 0%float
  = [nan].
Proof. reflexivity. Qed.

(** The same for the temperature when [T_in] is 0. *)
Example temperature_gradient_nan :
  temperature_gradient (fun _ _ => 1%float) [0%float] 0.5%float 4%float 0%float
  = [nan].
Proof. reflexivity. Qed.

(** C7 at its failing input.  [flux_per_pixel] multiplies the flux of a
    pixel by [1 - exp(-tau)] and returns the product as it is: for a
    zero-temperature pixel with a NaN optical depth (the one computed in
    [optical_depth_gradient_nan]) the entry returned is NaN, whatever
    Planck's law, the wavelength and the pixel size are.  Line 162 of
    [_get_flux] would have replaced it by 0. *)
Theorem flux_per_pixel_propagates_nan
  (exp_ordinary : float -> float) (planck : float -> float -> float)
  (wavelength pixel_size : float) :
  flux_per_pixel exp_ordinary planck wavelength [0%float] [nan] pixel_size
  = Ok [nan] /\
  degenerate nan = true /\
  ModelBase.zero_nan_and_inf [nan] = [0%float].
Proof.
  split; [|split; reflexivity].
  unfold flux_per_pixel, BlackBody, Np.broadcast2. simpl.
  now rewrite mul_nan_r.
Qed.

(** ** The base model of model_base.py *)

Import ModelBase.

Ltac init_step :=
  cbn -[nearest_float PrimFloat.is_infinity float_of_int];
  try (unfold float_of_int at 1; cbv zeta;
       match goal with
       | |- context [PrimFloat.is_infinity (nearest_float ?z)] =>
           destruct (PrimFloat.is_infinity (nearest_float z));
           [reflexivity|]
       end;
       cbn -[nearest_float PrimFloat.is_infinity float_of_int]).

(** C9, as the code has it.  For every argument tuple of the declared
    types, [Model.__init__] raises before it completes, whatever the
    statements after line 41 would do, so the call [Model(...)] never
    yields an instance.  The exception is the [NameError] of
    [luminostiy_star] when the four arguments before it can be given
    their units, and the [OverflowError] of the first multiplication by
    a unit that cannot: an int beyond the float64 range. *)
Theorem Model_init_never_returns
  (stellar_setup : obj -> result obj) (a : InitArgs) :
  Model_init stellar_setup a =
  Raise (if takes_unit (field_of_view a) && takes_unit (image_size a)
            && takes_unit (sublimation_temperature a)
            && takes_unit (effective_temperature a)
         then NameError "luminostiy_star"
         else OverflowError) /\
  forall o : obj, Model_call stellar_setup a <> Ok o.
Proof.
  assert (H : Model_init stellar_setup a =
              Raise (if takes_unit (field_of_view a) && takes_unit (image_size a)
                        && takes_unit (sublimation_temperature a)
                        && takes_unit (effective_temperature a)
                     then NameError "luminostiy_star"
                     else OverflowError)).
  { destruct a as [fov size tsub teff lum dist wl sampling].
    unfold Model_init, assign_with_unit, takes_unit.
    destruct fov as [[z|x]|n units]; init_step;
      (destruct size as [[z'|x']|n' units']; init_step;
       (destruct sampling as [[[zs|xs]|ns us]|]; init_step;
        (destruct tsub as [[z2|x2]|n2 units2]; init_step;
         (destruct teff as [[z3|x3]|n3 units3]; init_step;
          reflexivity)))). }
  split; [exact H|]. intros o. unfold Model_call. rewrite H. discriminate.
Qed.

(** C9, as stated, fails for an int beyond the float64 range: with
    [field_of_view = 10**400] the first assignment raises [OverflowError]
    at [field_of_view*u.mas], before the misspelt name is read. *)
Lemma Model_init_overflow_before_NameError :
  let a :=
    {| field_of_view := Plain (Int (10 ^ 400));
       image_size := Plain (Int 128);
       sublimation_temperature := Plain (Int 1500);
       effective_temperature := Plain (Int 7900);
       luminosity_star := Plain (Int 19);
       distance := Plain (Int 140);
       wavelength := Plain (Float 10);
       pixel_sampling := None |} in
  Model_call (fun self => Ok self) a = Raise OverflowError /\
  Model_call (fun self => Ok self) a <> Raise (NameError "luminostiy_star").
Proof. split; [vm_compute; reflexivity | vm_compute; discriminate]. Qed.

(** The misspelt name is bound nowhere, while the parameter it stands for
    is a local variable. *)
Example luminosity_star_is_bound (a : InitArgs) :
  load_name (init_locals a) "luminosity_star" = Ok (value_of (luminosity_star a)).
Proof. reflexivity. Qed.

Section SetGridFacts.

Variable grid : Type.
Variable plain_grid : grid.
Variable inclined_grid : float -> Angle -> grid.

(** With a list of two numbers [set_grid] never returns a grid: past the
    test of the axis ratio, a positive angle stops at the comparison of a
    quantity in rad with the bare number 180, and any other angle at the
    second conversion to rad. *)
Lemma set_grid_never_accepts (axis_ratio pos_angle : float) :
  exists e : exn,
    set_grid plain_grid inclined_grid (Some [axis_ratio; pos_angle]) = Raise e.
Proof.
  unfold set_grid. simpl.
  destruct (axis_ratio <? 1)%float; [now exists ValueError|].
  unfold angle_gt. change (can_have_arbitrary_unit 0) with true. simpl.
  destruct (0 <? pos_angle * deg_in_rad)%float; simpl;
    now exists UnitConversionError.
Qed.

(** An axis ratio below 1 is refused with [ValueError]. *)
Lemma set_grid_small_axis_ratio (axis_ratio pos_angle : float) :
  (axis_ratio <? 1)%float = true ->
  set_grid plain_grid inclined_grid (Some [axis_ratio; pos_angle])
  = Raise ValueError.
Proof. intros H. unfold set_grid. simpl. now rewrite H. Qed.

(** C5 at its failing input.  An axis ratio of 1.5 and a position angle of
    45 degrees are inside the documented ranges, and [set_grid] raises
    instead of returning the inclined grid. *)
Theorem set_grid_rejects_valid_inclination :
  set_grid plain_grid inclined_grid (Some [1.5%float; 45%float])
  = Raise UnitConversionError /\
  is_ValueError UnitConversionError = true.
Proof. split; reflexivity. Qed.

End SetGridFacts.

(** ** The sublimation radius and temperature of utils.py *)

Section SublimationFacts.

Import Sublimation.
Local Open Scope R_scope.

Lemma sigma_sb_positive : 0 < sigma_sb.
Proof. unfold sigma_sb. lra. Qed.

Lemma rad_in_mas_positive : 0 < rad_in_mas.
Proof.
  unfold rad_in_mas. apply Rdiv_lt_0_compat; [lra | apply PI_RGT_0].
Qed.

(** The two conversions between metres and milliarcseconds undo each
    other. *)
Lemma parallax_of_orbital_radius (r d : R) :
  0 < d ->
  _convert_parallax_to_orbital_radius
    (_convert_orbital_radius_to_parallax r d) d = r.
Proof.
  intros Hd. pose proof rad_in_mas_positive as Hk.
  unfold _convert_parallax_to_orbital_radius,
    _convert_orbital_radius_to_parallax, pc_in_m.
  field. split; lra.
Qed.



End SublimationFacts.

(** The float64 program at the ends of its range: a distance in metres
    and a luminosity that are positive and finite. *)











(** ** The chi-square term of fitting_utils.py *)

Section ChiSqFacts.

Import ChiSq.
Local Open Scope R_scope.

(** What the code computes: the squared residuals are all weighted by the
    inverse of one number, the variances of all measurements summed. *)
Lemma chi_sq_total_variance (real_data data_error data_model : list R) (lnf : R) :
  0 < total_variance data_error data_model lnf ->
  chi_sq real_data data_error data_model lnf =
  -0.5 * sum (zip_with (fun data model =>
                          (data - model) ^ 2
                          / total_variance data_error data_model lnf
                          + ln (total_variance data_error data_model lnf))
                       real_data data_model).
Proof.
  intros HS. unfold chi_sq. fold (total_variance data_error data_model lnf).
  f_equal. f_equal. unfold zip_with. apply map_ext. intros [data model].
  cbn [fst snd]. unfold Rdiv at 1 2. rewrite Rmult_1_l.
  rewrite (ln_Rinv _ HS). unfold Rdiv. lra.
Qed.

(** With a single measurement the two terms are the same number. *)
Lemma chi_sq_one_measurement (data error model lnf : R) :
  0 < effective_variance lnf error model ->
  chi_sq [data] [error] [model] lnf =
  chi_sq_per_measurement [data] [error] [model] lnf.
Proof.
  intros HS. rewrite chi_sq_total_variance.
  - unfold chi_sq_per_measurement, total_variance, zip_with, sum.
    cbn [combine map fold_right fst snd]. now rewrite !Rplus_0_r.
  - unfold total_variance, zip_with, sum.
    cbn [combine map fold_right fst snd]. now rewrite Rplus_0_r.
Qed.

Lemma effective_variance_unit_error : effective_variance 0 1 0 = 1.
Proof. unfold effective_variance. rewrite Rmult_0_r, exp_0. lra. Qed.

(** C1 at its failing input.  Two measurements with observation 0, error
    1 and model 0, and [lnf = 0]: each effective variance is 1, so the
    per-measurement term is 0; [chi_sq] weights by the summed variance 2
    and returns [-ln 2]. *)
Theorem chi_sq_pools_the_variances :
  chi_sq [0; 0] [1; 1] [0; 0] 0 = - ln 2 /\
  chi_sq_per_measurement [0; 0] [1; 1] [0; 0] 0 = 0 /\
  chi_sq [0; 0] [1; 1] [0; 0] 0 <> chi_sq_per_measurement [0; 0] [1; 1] [0; 0] 0.
Proof.
  assert (Hcode : chi_sq [0; 0] [1; 1] [0; 0] 0 = - ln 2).
  { rewrite chi_sq_total_variance; unfold total_variance, zip_with, sum;
      cbn [combine map fold_right fst snd];
      rewrite effective_variance_unit_error;
      replace (1 + (1 + 0)) with 2 by lra; lra. }
  assert (Hspec : chi_sq_per_measurement [0; 0] [1; 1] [0; 0] 0 = 0).
  { unfold chi_sq_per_measurement, zip_with, sum.
    cbn [combine map fold_right fst snd].
    rewrite effective_variance_unit_error, ln_1. lra. }
  repeat split; [exact Hcode | exact Hspec |].
  rewrite Hcode, Hspec. pose proof ln_lt_2. lra.
Qed.

End ChiSqFacts.

(** * Further properties *)

(** ** The order of floats *)

Lemma lex_Lt (e1 e2 : Z) (m1 m2 : positive) :
  match (e1 ?= e2)%Z with
  | Lt => Lt | Gt => Gt | Eq => Pos.compare_cont Eq m1 m2
  end = Lt <->
  (e1 < e2)%Z \/ (e1 = e2 /\ (m1 < m2)%positive).
Proof.
  change (Pos.compare_cont Eq m1 m2) with (m1 ?= m2)%positive.
  destruct (Z.compare_spec e1 e2), (Pos.compare_spec m1 m2);
    split; intros Hc; try discriminate; try lia; auto.
Qed.

Lemma lex_Gt (e1 e2 : Z) (m1 m2 : positive) :
  match (e1 ?= e2)%Z with
  | Lt => Gt | Gt => Lt | Eq => CompOpp (Pos.compare_cont Eq m1 m2)
  end = Lt <->
  (e2 < e1)%Z \/ (e1 = e2 /\ (m2 < m1)%positive).
Proof.
  change (Pos.compare_cont Eq m1 m2) with (m1 ?= m2)%positive.
  destruct (Z.compare_spec e1 e2), (Pos.compare_spec m1 m2);
    split; simpl; intros Hc; try discriminate; try lia; auto.
Qed.

Lemma SFltb_trans (a b c : spec_float) :
  SFltb a b = true -> SFltb b c = true -> SFltb a c = true.
Proof.
  unfold SFltb.
  destruct a as [[]|[]| |[] ma ea], b as [[]|[]| |[] mb eb],
    c as [[]|[]| |[] mc ec]; simpl; try discriminate; try reflexivity.
  all: destruct (match (ea ?= eb)%Z with
                 | Lt => _ | Gt => _ | Eq => _ end) eqn:Hab;
    try discriminate.
  all: destruct (match (eb ?= ec)%Z with
                 | Lt => _ | Gt => _ | Eq => _ end) eqn:Hbc;
    try discriminate.
  all: intros _ _.
  - apply lex_Gt in Hab, Hbc.
    assert (H : (ec < ea)%Z \/ (ea = ec /\ (mc < ma)%positive)) by lia.
    apply lex_Gt in H. now rewrite H.
  - apply lex_Lt in Hab, Hbc.
    assert (H : (ea < ec)%Z \/ (ea = ec /\ (ma < mc)%positive)) by lia.
    apply lex_Lt in H. now rewrite H.
Qed.

Lemma ltb_trans (x y z : float) :
  (x <? y)%float = true -> (y <? z)%float = true -> (x <? z)%float = true.
Proof. rewrite !ltb_spec. apply SFltb_trans. Qed.

Lemma ltb_irrefl (x : float) : (x <? x)%float = false.
Proof.
  destruct (x <? x)%float eqn:E; [|reflexivity].
  now rewrite (ltb_asym _ _ E) in E.
Qed.

Lemma nan_not_ltb (x y : float) :
  PrimFloat.is_nan x = true \/ PrimFloat.is_nan y = true ->
  (x <? y)%float = false.
Proof.
  intros H. destruct (x <? y)%float eqn:E; [|reflexivity].
  destruct (ltb_not_nan _ _ E) as [Hx Hy]. destruct H; congruence.
Qed.

(** ** More on the prior check *)

Lemma strictly_within_true (o : prior) (theta : list float) (i : nat) :
  strictly_within o theta i = Ok true ->
  exists (lo hi : float) (rest : list float) (x : float),
    o = lo :: hi :: rest /\ nth_error theta i = Some x /\
    (lo <? x)%float = true /\ (x <? hi)%float = true.
Proof.
  unfold strictly_within, getitem.
  destruct o as [|lo [|hi rest]]; simpl; try discriminate;
    destruct (nth_error theta i) as [x|]; simpl; try discriminate;
    destruct (lo <? x)%float eqn:Hlo; simpl; try discriminate.
  intros H. injection H as H. now exists lo, hi, rest, x.
Qed.

Lemma lnprior_from_outcomes (priors : list prior) :
  forall (k : nat) (theta : list float) (v : float),
    lnprior_from k theta priors = Ok v ->
    v = neg_infinity \/
    (v = 0%float /\
     forall (i : nat) (o : prior),
       nth_error priors i = Some o ->
       exists (lo hi : float) (rest : list float) (x : float),
         o = lo :: hi :: rest /\ nth_error theta (k + i) = Some x /\
         (lo <? x)%float = true /\ (x <? hi)%float = true).
Proof.
  induction priors as [|p rest IH]; intros k theta v H; simpl in H.
  - right. split; [congruence|]. intros [|i] o Ho; discriminate.
  - destruct (strictly_within p theta k) as [[|]|e] eqn:E; simpl in H;
      try discriminate.
    + destruct (IH (S k) theta v H) as [Hv|[Hv Hall]]; [now left|].
      right. split; [exact Hv|]. intros [|i] o Ho; simpl in Ho.
      * injection Ho as <-. rewrite Nat.add_0_r.
        now apply strictly_within_true.
      * replace (k + S i) with (S k + i) by lia. now apply Hall.
    + left. congruence.
Qed.

(** When [lnprior] returns, it returns [-inf] or [0.0]; and it returns
    [0.0] only if every prior is a list of at least two bounds and the
    parameter at its index lies strictly between them. *)
Theorem lnprior_outcomes (theta : list float) (priors : list prior) (v : float) :
  lnprior theta priors = Ok v ->
  v = neg_infinity \/
  (v = 0%float /\
   forall (i : nat) (o : prior),
     nth_error priors i = Some o ->
     exists (lo hi : float) (rest : list float) (x : float),
       o = lo :: hi :: rest /\ nth_error theta i = Some x /\
       (lo <? x)%float = true /\ (x <? hi)%float = true).
Proof. intros H. exact (lnprior_from_outcomes priors 0 theta v H). Qed.

Lemma lnprior_outcomes_witness :
  0%float = neg_infinity \/
  (0%float = 0%float /\
   forall (i : nat) (o : prior),
     nth_error [[0%float; 1%float]; [1%float; 2%float]] i = Some o ->
     exists (lo hi : float) (rest : list float) (x : float),
       o = lo :: hi :: rest /\
       nth_error [0.5%float; 1.5%float] i = Some x /\
       (lo <? x)%float = true /\ (x <? hi)%float = true).
Proof.
  apply (lnprior_outcomes [0.5%float; 1.5%float]
           [[0%float; 1%float]; [1%float; 2%float]] 0%float).
  reflexivity.
Defined.

(** The whole loop on priors that hold their two bounds: a parameter that
    fails its test gives [-inf]; otherwise a parameter vector shorter than
    the list of priors gives [IndexError]; otherwise [0.0]. *)
Lemma lnprior_from_cases (priors : list prior) :
  forall (k : nat) (theta : list float),
    Forall two_bounds priors ->
    lnprior_from k theta priors =
    if all_strictly_inside (skipn k theta) priors
    then (if List.length priors <=? List.length (skipn k theta)
          then Ok 0%float else Raise IndexError)
    else Ok neg_infinity.
Proof.
  induction priors as [|p rest IH]; intros k theta Hwf.
  - reflexivity.
  - inversion Hwf as [|? ? Hp0 Hrest]; subst.
    destruct (nth_error theta k) as [y|] eqn:Hy.
    + assert (Hskip : skipn k theta = y :: skipn (S k) theta).
      { clear -Hy. revert theta Hy. induction k as [|k IHk]; intros [|a l] Hy;
          simpl in *; try discriminate.
        - now injection Hy as ->.
        - now apply IHk. }
      simpl lnprior_from. rewrite (strictly_within_eval _ _ _ _ Hp0 Hy).
      unfold all_strictly_inside in *. rewrite Hskip. simpl.
      destruct (strictly_inside p y); simpl; [|reflexivity].
      apply (IH (S k) theta Hrest).
    + pose proof Hy as Hlen. apply nth_error_None in Hlen.
      unfold all_strictly_inside. rewrite (skipn_all2 theta Hlen).
      simpl. unfold strictly_within, getitem. rewrite Hy.
      unfold two_bounds in Hp0. destruct p as [|lo [|hi r]]; simpl in *; try lia.
      reflexivity.
Qed.

Section LnprobEdges.

Variable DataHandler : Type.
Variable priors : DataHandler -> list prior.
Variable lnlike : list float -> DataHandler -> result float.

(** A parameter vector shorter than the list of priors: [lnprob] raises
    [IndexError] when every parameter it has passes its test, and returns
    [-inf] when one fails; in both cases the model is not evaluated. *)
Theorem lnprob_short_theta (theta : list float) (data : DataHandler) :
  Forall two_bounds (priors data) ->
  List.length theta < List.length (priors data) ->
  lnprob priors lnlike theta data =
  if all_strictly_inside theta (priors data)
  then Run (Raise IndexError) []
  else Run (Ok neg_infinity) [].
Proof.
  intros Hwf Hlen. unfold lnprob, lnprior.
  rewrite (lnprior_from_cases (priors data) 0 theta Hwf). simpl skipn.
  destruct (all_strictly_inside theta (priors data)); [|reflexivity].
  replace (List.length (priors data) <=? List.length theta) with false
    by (symmetry; apply Nat.leb_gt; exact Hlen).
  reflexivity.
Qed.

(** A NaN parameter, or a NaN bound of its prior, rejects the vector. *)
Theorem lnprob_rejects_nan
  (theta : list float) (data : DataHandler)
  (i : nat) (lo hi x : float) (rest : list float) :
  Forall two_bounds (priors data) ->
  nth_error (priors data) i = Some (lo :: hi :: rest) ->
  nth_error theta i = Some x ->
  PrimFloat.is_nan x = true \/ PrimFloat.is_nan lo = true
    \/ PrimFloat.is_nan hi = true ->
  lnprior theta (priors data) = Ok neg_infinity /\
  lnprob priors lnlike theta data = Run (Ok neg_infinity) [].
Proof.
  intros Hwf Hp Hx Hnan.
  assert (Hout : strictly_inside (lo :: hi :: rest) x = false).
  { simpl. apply andb_false_iff. destruct Hnan as [H|[H|H]].
    - left. apply nan_not_ltb. now right.
    - left. apply nan_not_ltb. now left.
    - right. apply nan_not_ltb. now right. }
  assert (H : lnprior theta (priors data) = Ok neg_infinity)
    by exact (lnprior_from_rejects (priors data) 0 i theta _ x Hwf Hp Hx Hout).
  split; [exact H|]. unfold lnprob. now rewrite H.
Qed.

(** A prior whose lower bound is not below its upper bound admits no
    value: every parameter vector that reaches it is rejected. *)
Theorem lnprob_empty_interval
  (theta : list float) (data : DataHandler)
  (i : nat) (lo hi x : float) (rest : list float) :
  Forall two_bounds (priors data) ->
  nth_error (priors data) i = Some (lo :: hi :: rest) ->
  nth_error theta i = Some x ->
  (lo <? hi)%float = false ->
  lnprior theta (priors data) = Ok neg_infinity /\
  lnprob priors lnlike theta data = Run (Ok neg_infinity) [].
Proof.
  intros Hwf Hp Hx Hempty.
  assert (Hout : strictly_inside (lo :: hi :: rest) x = false).
  { simpl. destruct (lo <? x)%float eqn:H1; [|reflexivity].
    destruct (x <? hi)%float eqn:H2; [|reflexivity].
    rewrite (ltb_trans _ _ _ H1 H2) in Hempty. discriminate. }
  assert (H : lnprior theta (priors data) = Ok neg_infinity)
    by exact (lnprior_from_rejects (priors data) 0 i theta _ x Hwf Hp Hx Hout).
  split; [exact H|]. unfold lnprob. now rewrite H.
Qed.

End LnprobEdges.

Lemma lnprob_short_theta_witness :
  lnprob (fun d : list prior => d) (fun _ _ => Ok 0%float)
    [0.5%float] [[0%float; 1%float]; [1%float; 2%float]]
  = (if all_strictly_inside [0.5%float] [[0%float; 1%float]; [1%float; 2%float]]
     then Run (Raise IndexError) []
     else Run (Ok neg_infinity) []).
Proof.
  apply (lnprob_short_theta (list prior) (fun d => d) (fun _ _ => Ok 0%float)
           [0.5%float] [[0%float; 1%float]; [1%float; 2%float]]).
  - repeat constructor.
  - simpl. lia.
Defined.

Lemma lnprob_rejects_nan_witness :
  lnprior [nan] [[0%float; 1%float]] = Ok neg_infinity /\
  lnprob (fun d : list prior => d) (fun _ _ => Ok 0%float)
    [nan] [[0%float; 1%float]] = Run (Ok neg_infinity) [].
Proof.
  apply (lnprob_rejects_nan (list prior) (fun d => d) (fun _ _ => Ok 0%float)
           [nan] [[0%float; 1%float]] 0 0%float 1%float nan []).
  - repeat constructor.
  - reflexivity.
  - reflexivity.
  - left. reflexivity.
Defined.

Lemma lnprob_empty_interval_witness :
  lnprior [1.5%float] [[2%float; 1%float]] = Ok neg_infinity /\
  lnprob (fun d : list prior => d) (fun _ _ => Ok 0%float)
    [1.5%float] [[2%float; 1%float]] = Run (Ok neg_infinity) [].
Proof.
  apply (lnprob_empty_interval (list prior) (fun d => d) (fun _ _ => Ok 0%float)
           [1.5%float] [[2%float; 1%float]] 0 2%float 1%float 1.5%float []).
  - repeat constructor.
  - reflexivity.
  - reflexivity.
  - reflexivity.
Defined.

Lemma lnprior_from_app (priors : list prior) :
  forall (k : nat) (theta extra : list float),
    List.length priors + k <= List.length theta ->
    lnprior_from k (theta ++ extra) priors = lnprior_from k theta priors.
Proof.
  induction priors as [|p rest IH]; intros k theta extra Hlen.
  - reflexivity.
  - simpl in Hlen. simpl.
    assert (Hw : strictly_within p (theta ++ extra) k = strictly_within p theta k).
    { unfold strictly_within, getitem.
      now rewrite (nth_error_app1 theta extra) by lia. }
    rewrite Hw, (IH (S k) theta extra) by lia. reflexivity.
Qed.

(** Parameters beyond the last prior are not looked at: appending entries
    to a parameter vector that already covers the priors leaves the
    outcome of [lnprior] as it was. *)
Theorem lnprior_ignores_unbounded (theta extra : list float) (priors : list prior) :
  List.length priors <= List.length theta ->
  lnprior (theta ++ extra) priors = lnprior theta priors.
Proof. intros H. apply lnprior_from_app. lia. Qed.

Lemma lnprior_ignores_unbounded_witness :
  lnprior ([0.5%float] ++ [100%float]) [[0%float; 1%float]]
  = lnprior [0.5%float] [[0%float; 1%float]].
Proof.
  apply (lnprior_ignores_unbounded [0.5%float] [100%float] [[0%float; 1%float]]).
  simpl. lia.
Defined.

(** ** More on the read-out *)

Lemma no_member_nil {A : Type} (l : list A) :
  (forall x : A, ~ In x l) -> l = [].
Proof.
  destruct l as [|a l]; [reflexivity|]. intros H. destruct (H a). now left.
Qed.

(** A window whose bounds are not in order holds no wavelength. *)
Lemma window_indices_empty (solution : list float) (bot top : float) :
  (bot <? top)%float = false -> window_indices solution bot top = [].
Proof.
  intros H. apply no_member_nil. intros i Hi.
  apply window_indices_In in Hi. destruct Hi as [x [_ [Hb Ht]]].
  rewrite (ltb_trans _ _ _ Hb Ht) in H. discriminate.
Qed.

Lemma zero_width_bounds (w : float) : (w - 0 / 2 <? w + 0 / 2)%float = false.
Proof.
  change (0 / 2)%float with 0%float.
  rewrite ltb_spec, sub_spec, add_spec.
  change (Prim2SF 0) with (S754_zero false).
  destruct (Prim2SF w) as [[]|[]| |[] m e] eqn:E; try reflexivity;
    unfold SF64sub, SF64add, SFsub, SFadd, SFltb;
    now rewrite SFcompare_refl.
Qed.

(** A window of width zero selects nothing, even when the target is a
    wavelength of the solution. *)
Theorem get_wavelength_indices_zero_width (self : ReadoutFits) (target : float) :
  get_wavelength_indices self [target] [0%float] = Ok [[]].
Proof.
  rewrite get_wavelength_indices_shared_window. cbn [map].
  now rewrite (window_indices_empty _ _ _ (zero_width_bounds target)).
Qed.

(** The [np.repeat] that would match the window sizes to the wavelengths
    is dropped, so two lists of different lengths, neither of length one,
    end in the [ValueError] of broadcasting. *)
Theorem get_wavelength_indices_shape_mismatch
  (self : ReadoutFits) (wavelengths sizes : list float) :
  List.length wavelengths <> List.length sizes ->
  List.length wavelengths <> 1 ->
  List.length sizes <> 1 ->
  get_wavelength_indices self wavelengths sizes = Raise ValueError.
Proof.
  intros Hne Hw Hs. unfold get_wavelength_indices, Np.broadcast2.
  rewrite length_map.
  replace (List.length wavelengths =? List.length sizes) with false
    by (symmetry; now apply Nat.eqb_neq).
  destruct wavelengths as [|w [|w' ws]], sizes as [|d [|d' ds]];
    simpl in *; try reflexivity; lia.
Qed.

Lemma get_wavelength_indices_shape_mismatch_witness :
  get_wavelength_indices
    {| wavelength_solution := [8%float; 9%float]; oi_t3 := [] |}
    [8%float; 9%float; 10%float] [0.25%float; 0.5%float]
  = Raise ValueError.
Proof.
  apply (get_wavelength_indices_shape_mismatch
           {| wavelength_solution := [8%float; 9%float]; oi_t3 := [] |}
           [8%float; 9%float; 10%float] [0.25%float; 0.5%float]);
    simpl; lia.
Defined.

Import ReadoutUV.

(** The three legs of every closure-phase triangle, as pairs: the third
    is the vector sum of the first two. *)
Theorem closure_triangles_close (self : ReadoutFits) :
  get_closures_phase_uvcoords self =
  Ok [map (fun row => (u1coord row, v1coord row)) (oi_t3 self);
      map (fun row => (u2coord row, v2coord row)) (oi_t3 self);
      map (fun row => ((u1coord row + u2coord row)%float,
                       (v1coord row + v2coord row)%float)) (oi_t3 self)].
Proof.
  unfold get_closures_phase_uvcoords, get_closures_phase_uvcoords_split,
    get_data_t3.
  rewrite !add_columns.
  cbn [fst snd stack_legs getitem nth_error bind].
  now rewrite !combine_maps.
Qed.

Lemma binary_round_aux_not_negative (m e : Z) (l : location) (s0 : bool) :
  SFltb (binary_round_aux prec emax false m e l) (S754_zero s0) = false.
Proof.
  unfold binary_round_aux.
  destruct (shr_fexp prec emax m e l) as [mrs e'].
  destruct (shr_fexp prec emax _ e' loc_Exact) as [mrs' e''].
  destruct (shr_m mrs') as [|q|q]; try reflexivity.
  now destruct (e'' <=? emax - prec)%Z.
Qed.

(** A square root is never below zero. *)
Lemma sqrt_not_negative (x : float) : (sqrt x <? 0)%float = false.
Proof.
  rewrite ltb_spec, sqrt_spec. change (Prim2SF 0) with (S754_zero false).
  unfold SF64sqrt, SFsqrt.
  destruct (Prim2SF x) as [[]|[]| |[] m e]; try reflexivity.
  destruct (SFsqrt_core_binary prec emax (Z.pos m) e) as [[mz ez] lz].
  apply binary_round_aux_not_negative.
Qed.

(** A square does not see the sign. *)
Lemma square_opp (x : float) : (- x * - x)%float = (x * x)%float.
Proof.
  apply Prim2SF_inj. rewrite !mul_spec, opp_spec.
  destruct (Prim2SF x) as [[]|[]| |[] m e]; reflexivity.
Qed.

(** No baseline has a negative length, and a baseline has the same length
    from either end: [(u, v)] and [(-u, -v)] give the same entry. *)
Theorem get_baselines_lengths (oi_vis : list VisRow) :
  Forall (fun b => (b <? 0)%float = false) (get_baselines oi_vis) /\
  get_baselines (map reversed oi_vis) = get_baselines oi_vis.
Proof.
  unfold get_baselines, get_split_uvcoords, lengths. cbn [fst snd].
  rewrite ?map_map, !combine_maps, !map_map. split.
  - apply Forall_forall. intros b Hb. apply in_map_iff in Hb.
    destruct Hb as [row [<- _]]. apply sqrt_not_negative.
  - apply map_ext. intros row. cbn [fst snd reversed ucoord vcoord].
    now rewrite !square_opp.
Qed.

(** ** More on the radiative profiles *)

(** The shape of a finite float. *)
Lemma finite_shape (x : float) :
  PrimFloat.is_finite x = true ->
  (exists s : bool, Prim2SF x = S754_zero s) \/
  (exists (s : bool) (m : positive) (e : Z), Prim2SF x = S754_finite s m e).
Proof.
  unfold PrimFloat.is_finite, PrimFloat.is_nan, PrimFloat.is_infinity.
  rewrite !eqb_spec, abs_spec.
  change (Prim2SF infinity) with (S754_infinity false).
  destruct (Prim2SF x) as [s|s| |s m e]; simpl; intros H.
  - left. now exists s.
  - destruct s; discriminate.
  - discriminate.
  - right. now exists s, m, e.
Qed.

Lemma finite_mul_zero (x : float) :
  PrimFloat.is_finite x = true -> (x * 0 =? 0)%float = true.
Proof.
  intros H. rewrite eqb_spec, mul_spec.
  change (Prim2SF 0) with (S754_zero false).
  destruct (finite_shape x H) as [[s ->]|[s [m [e ->]]]]; reflexivity.
Qed.

(** The pole of either power law, as the profile functions leave it. *)
Lemma zero_where_inf_at_pole (ordinary : float -> float -> float)
  (radius : list float) (i : nat) (alpha x_0 amplitude : float) :
  (0 <? alpha)%float = true ->
  (0 <? x_0)%float = true ->
  (0 <? amplitude)%float = true ->
  nth_error radius i = Some 0%float ->
  nth_error
    (zero_where_inf
       (map (fun r => PowerLaw1D_evaluate ordinary r amplitude x_0 alpha) radius))
    i = Some 0%float.
Proof.
  intros Ha Hx Hamp Hi. unfold zero_where_inf.
  rewrite !nth_error_map, Hi. cbn [option_map].
  rewrite (PowerLaw1D_at_zero _ _ _ _ Ha Hx Hamp). reflexivity.
Qed.

(** The optical depth follows the same policy as the temperature: for an
    exponent [p > 0], an inner radius [r_in > 0] and an inner optical
    depth [tau_in > 0], the entry at a radius of 0 is exactly 0. *)
Theorem optical_depth_gradient_at_zero
  (pow_ordinary : float -> float -> float)
  (radius : list float) (i : nat) (p r_in tau_in : float) :
  (0 <? p)%float = true ->
  (0 <? r_in)%float = true ->
  (0 <? tau_in)%float = true ->
  nth_error radius i = Some 0%float ->
  nth_error (optical_depth_gradient pow_ordinary radius p r_in tau_in) i
  = Some 0%float.
Proof.
  intros Hp Hr Ht Hi. unfold optical_depth_gradient.
  now apply zero_where_inf_at_pole.
Qed.

Lemma optical_depth_gradient_at_zero_witness :
  nth_error
    (optical_depth_gradient (fun _ _ => 1%float) [4%float; 0%float]
       0.5%float 4%float 0.75%float) 1
  = Some 0%float.
Proof.
  apply (optical_depth_gradient_at_zero (fun _ _ => 1%float)
           [4%float; 0%float] 1 0.5%float 4%float 0.75%float); reflexivity.
Defined.

Lemma nth_error_combine {A B : Type} (l : list A) (l' : list B) :
  forall (i : nat) (a : A) (b : B),
    nth_error l i = Some a -> nth_error l' i = Some b ->
    nth_error (combine l l') i = Some (a, b).
Proof.
  revert l'. induction l as [|x l IH]; intros [|y l'] [|i] a b Ha Hb;
    simpl in *; try discriminate.
  - congruence.
  - now apply IH.
Qed.

(** The profiles composed: on the grid of a disc whose temperature and
    optical depth both fall off ([q, p > 0]) from positive inner values,
    the pixel at radius 0 gets the black-body flux of temperature 0 times
    the absorption factor [1 - exp(-0) = 0]; it is dark whenever that
    flux is finite. *)
Theorem central_pixel_flux
  (pow_ordinary : float -> float -> float) (exp_ordinary : float -> float)
  (planck : float -> float -> float)
  (wavelength pixel_size q p r_in T_in tau_in : float)
  (radius fluxes : list float) (i : nat) :
  (0 <? q)%float = true ->
  (0 <? p)%float = true ->
  (0 <? r_in)%float = true ->
  (0 <? T_in)%float = true ->
  (0 <? tau_in)%float = true ->
  nth_error radius i = Some 0%float ->
  flux_per_pixel exp_ordinary planck wavelength
    (temperature_gradient pow_ordinary radius q r_in T_in)
    (optical_depth_gradient pow_ordinary radius p r_in tau_in)
    pixel_size = Ok fluxes ->
  let unabsorbed :=
    (planck wavelength 0 * per_sr_to_per_mas2 * (pixel_size * pixel_size)
     * cgs_to_Jy)%float in
  nth_error fluxes i = Some (unabsorbed * 0)%float /\
  (PrimFloat.is_finite unabsorbed = true ->
   exists f : float, nth_error fluxes i = Some f /\ (f =? 0)%float = true).
Proof.
  intros Hq Hp Hr HT Htau Hi Hflux unabsorbed.
  assert (Hentry : nth_error fluxes i = Some (unabsorbed * 0)%float).
  { pose proof (zero_where_inf_at_pole pow_ordinary radius i q r_in T_in
                  Hq Hr HT Hi) as HTi.
    pose proof (zero_where_inf_at_pole pow_ordinary radius i p r_in tau_in
                  Hp Hr Htau Hi) as Htaui.
    fold (temperature_gradient pow_ordinary radius q r_in T_in) in HTi.
    fold (optical_depth_gradient pow_ordinary radius p r_in tau_in) in Htaui.
    assert (Hlen : List.length (temperature_gradient pow_ordinary radius q r_in T_in)
                   = List.length (optical_depth_gradient pow_ordinary radius p
                                    r_in tau_in)).
    { unfold temperature_gradient, optical_depth_gradient, zero_where_inf.
      now rewrite !length_map. }
    revert Hflux HTi Htaui Hlen.
    generalize (temperature_gradient pow_ordinary radius q r_in T_in) as Ts.
    generalize (optical_depth_gradient pow_ordinary radius p r_in tau_in) as taus.
    intros taus Ts Hflux HTi Htaui Hlen.
    unfold flux_per_pixel, BlackBody in Hflux.
    destruct (existsb _ _); [discriminate|]. cbn [bind] in Hflux.
    unfold Np.broadcast2 in Hflux.
    rewrite !length_map, Hlen, Nat.eqb_refl in Hflux.
    injection Hflux as <-.
    rewrite nth_error_map.
    erewrite nth_error_combine;
      [| rewrite !nth_error_map, HTi; reflexivity
       | rewrite nth_error_map, Htaui; reflexivity ].
    reflexivity. }
  split; [exact Hentry|]. intros Hfin.
  exists (unabsorbed * 0)%float. split; [exact Hentry|].
  now apply finite_mul_zero.
Qed.

Lemma central_pixel_flux_witness :
  let unabsorbed :=
    (0 * per_sr_to_per_mas2 * (0.5 * 0.5) * cgs_to_Jy)%float in
  nth_error [0%float; 0%float] 0 = Some (unabsorbed * 0)%float /\
  (PrimFloat.is_finite unabsorbed = true ->
   exists f : float,
     nth_error [0%float; 0%float] 0 = Some f /\ (f =? 0)%float = true).
Proof.
  apply (central_pixel_flux (fun _ _ => 1%float) (fun _ => 0.5%float)
           (fun _ _ => 0%float) 10%float 0.5%float 0.5%float 0.5%float
           4%float 1500%float 0.75%float [0%float; 4%float]
           [0%float; 0%float] 0); reflexivity.
Defined.

(** ** More on the stellar quantities of utils.py *)

Section StellarFacts.

Import Sublimation.
Import Stellar.
Local Open Scope R_scope.

Lemma orbital_radius_of_parallax (p d : R) :
  0 < d ->
  _convert_orbital_radius_to_parallax
    (_convert_parallax_to_orbital_radius p d) d = p.
Proof.
  intros Hd. pose proof rad_in_mas_positive as Hk.
  unfold _convert_parallax_to_orbital_radius,
    _convert_orbital_radius_to_parallax, pc_in_m.
  field. split; lra.
Qed.

(** The conversions between an orbital radius in metres and its parallax
    in milliarcseconds are inverse to each other, at every positive
    distance. *)
Theorem parallax_conversions_inverse (x d : R) :
  0 < d ->
  _convert_parallax_to_orbital_radius
    (_convert_orbital_radius_to_parallax x d) d = x /\
  _convert_orbital_radius_to_parallax
    (_convert_parallax_to_orbital_radius x d) d = x.
Proof.
  intros Hd. split.
  - now apply parallax_of_orbital_radius.
  - now apply orbital_radius_of_parallax.
Qed.

Lemma parallax_conversions_inverse_witness :
  _convert_parallax_to_orbital_radius
    (_convert_orbital_radius_to_parallax 3 140) 140 = 3 /\
  _convert_orbital_radius_to_parallax
    (_convert_parallax_to_orbital_radius 3 140) 140 = 3.
Proof. apply (parallax_conversions_inverse 3 140). lra. Defined.

Lemma Stefan_Boltzmann_denominator (T : R) :
  0 < T -> 0 < 4 * PI * sigma_sb * T ^ 4.
Proof.
  intros HT. pose proof sigma_sb_positive. pose proof PI_RGT_0.
  assert (0 < T ^ 4) by (apply pow_lt; exact HT).
  assert (0 < 4 * PI) by lra.
  assert (0 < 4 * PI * sigma_sb) by (apply Rmult_lt_0_compat; assumption).
  apply Rmult_lt_0_compat; assumption.
Qed.

(** The radius returned for a star satisfies the Stefan-Boltzmann law:
    a sphere of that radius at the effective temperature radiates the
    luminosity. *)
Theorem stellar_radius_radiates_luminosity (L T : R) :
  0 <= L -> 0 < T ->
  4 * PI * _calculate_stellar_radius L T ^ 2 * sigma_sb * T ^ 4 = L.
Proof.
  intros HL HT. pose proof (Stefan_Boltzmann_denominator T HT) as Hden.
  unfold _calculate_stellar_radius. rewrite pow2_sqrt.
  - field. pose proof sigma_sb_positive. pose proof PI_RGT_0.
    assert (0 < T ^ 4) by (apply pow_lt; exact HT).
    repeat split; lra.
  - apply Rmult_le_pos; [exact HL|]. apply Rlt_le, Rinv_0_lt_compat, Hden.
Qed.

Lemma stellar_radius_radiates_luminosity_witness :
  4 * PI * _calculate_stellar_radius 7.2732e27 7900 ^ 2 * sigma_sb * 7900 ^ 4
  = 7.2732e27.
Proof.
  apply (stellar_radius_radiates_luminosity 7.2732e27 7900); lra.
Defined.

Lemma fourth_power_of_fourth_root (x : R) :
  0 < x -> Rpower x (1 / 4) ^ 4 = x.
Proof.
  intros Hx.
  rewrite <- (Rpower_pow 4 (Rpower x (1 / 4))) by apply exp_pos.
  rewrite Rpower_mult.
  replace (1 / 4 * INR 4) with 1 by (simpl; lra).
  now apply Rpower_1.
Qed.

(** The round trip of the sublimation radius the other way: the inner
    radius of the temperature found for a radius [r] (in mas) is [r]. *)
Theorem inner_radius_of_inner_temperature (r d L : R) :
  0 < r -> 0 < d -> 0 < L ->
  exists T : R,
    _calculate_inner_temperature {| magnitude := r; unit := Mas |} d L = Ok T /\
    0 < T /\
    _calculate_inner_radius T d L = {| magnitude := r; unit := Mas |}.
Proof.
  intros Hr Hd HL.
  pose proof sigma_sb_positive as Hs. pose proof PI_RGT_0 as Hpi.
  pose proof rad_in_mas_positive as Hk.
  set (rm := _convert_parallax_to_orbital_radius r d).
  assert (Hrm : 0 < rm).
  { unfold rm, _convert_parallax_to_orbital_radius, pc_in_m.
    apply Rdiv_lt_0_compat; [|exact Hk].
    apply Rmult_lt_0_compat; [exact Hr|]. apply Rmult_lt_0_compat; lra. }
  assert (Hrm2 : 0 < rm ^ 2) by (apply pow_lt; exact Hrm).
  assert (H4pi : 0 < 4 * PI * sigma_sb)
    by (apply Rmult_lt_0_compat; [lra | exact Hs]).
  assert (Hx : 0 < L / (4 * PI * sigma_sb * rm ^ 2)).
  { apply Rdiv_lt_0_compat; [exact HL|]. now apply Rmult_lt_0_compat. }
  exists (Rpower (L / (4 * PI * sigma_sb * rm ^ 2)) (1 / 4)).
  split; [reflexivity|]. split; [apply exp_pos|].
  unfold _calculate_inner_radius. f_equal.
  rewrite (fourth_power_of_fourth_root _ Hx).
  replace (L / (4 * PI * sigma_sb * (L / (4 * PI * sigma_sb * rm ^ 2))))
    with (rm ^ 2) by (field; repeat split; lra).
  replace (rm ^ 2) with (Rsqr rm) by (unfold Rsqr; ring).
  rewrite sqrt_Rsqr by lra.
  unfold rm. now apply orbital_radius_of_parallax.
Qed.

Lemma inner_radius_of_inner_temperature_witness :
  exists T : R,
    _calculate_inner_temperature {| magnitude := 4; unit := Mas |}
      140 7.2732e27 = Ok T /\
    0 < T /\
    _calculate_inner_radius T 140 7.2732e27 = {| magnitude := 4; unit := Mas |}.
Proof.
  apply (inner_radius_of_inner_temperature 4 140 7.2732e27); lra.
Defined.

(** The unit conversions of [stellar_flux] cancel: the flux is the
    radiance times the solid angle of the stellar disc, that is
    [1e23 * B * L / (4 sigma T^4 D^2)] with the distance [D] in metres. It
    is proportional to the luminosity and falls off with the square of
    the distance. *)
Theorem stellar_flux_closed_form (planck : R -> R -> R) (wl T d L : R) :
  0 < T -> 0 < d -> 0 <= L ->
  stellar_flux planck wl T d L =
  Ok (1e23 * planck wl T * L / (4 * sigma_sb * T ^ 4 * (d * pc_in_m) ^ 2)).
Proof.
  intros HT Hd HL. pose proof (Stefan_Boltzmann_denominator T HT) as Hden.
  pose proof sigma_sb_positive as Hs. pose proof PI_RGT_0 as Hpi.
  pose proof rad_in_mas_positive as Hk.
  assert (HT4 : 0 < T ^ 4) by (apply pow_lt; exact HT).
  unfold stellar_flux. destruct (Rlt_dec T 0) as [Hneg|_]; [lra|].
  f_equal. unfold _convert_orbital_radius_to_parallax, _calculate_stellar_radius.
  rewrite !Rpow_mult_distr.
  replace ((R_sqrt.sqrt (L / (4 * PI * sigma_sb * T ^ 4)) / (d * pc_in_m)) ^ 2)
    with (R_sqrt.sqrt (L / (4 * PI * sigma_sb * T ^ 4)) ^ 2 / (d * pc_in_m) ^ 2)
    by (unfold pc_in_m; field; lra).
  rewrite pow2_sqrt.
  2:{ apply Rmult_le_pos; [exact HL|]. apply Rlt_le, Rinv_0_lt_compat, Hden. }
  unfold pc_in_m. field. repeat split; lra.
Qed.

Lemma stellar_flux_closed_form_witness :
  stellar_flux (fun _ _ => 1) 10 7900 140 7.2732e27 =
  Ok (1e23 * 1 * 7.2732e27 / (4 * sigma_sb * 7900 ^ 4 * (140 * pc_in_m) ^ 2)).
Proof.
  apply (stellar_flux_closed_form (fun _ _ => 1) 10 7900 140 7.2732e27); lra.
Defined.

End StellarFacts.

(** ** The name spaces of utils.py *)

Section NamespaceFacts.

Import Namespace.

Variable V : Type.
Variable as_list : V -> option (list V).

Lemma hidden_fields : hidden "_fields" = true.
Proof. reflexivity. Qed.

Lemma eqb_fields_hidden (name : string) :
  hidden name = false -> String.eqb name "_fields" = false.
Proof.
  intros Hpub. destruct (String.eqb name "_fields") eqn:E; [|reflexivity].
  apply String.eqb_eq in E. subst name. discriminate Hpub.
Qed.

Lemma IterNamespace_init_Ok (kwargs : list (string * V)) (ns : IterNamespace V) :
  IterNamespace_init kwargs = Ok ns ->
  _fields ns = map fst kwargs /\
  __dict__ ns
  = filter (fun kv => negb (String.eqb (fst kv) "_fields")) kwargs.
Proof.
  unfold IterNamespace_init.
  destruct (existsb (String.eqb "self") (map fst kwargs)); [discriminate|].
  intros H. injection H as <-. split; reflexivity.
Qed.

Lemma iter_public (kwargs : list (string * V)) (ns : IterNamespace V) :
  IterNamespace_init kwargs = Ok ns ->
  Forall (fun kv => hidden (fst kv) = false) kwargs ->
  __iter__ ns = map snd kwargs.
Proof.
  intros Hns Hpub. destruct (IterNamespace_init_Ok _ _ Hns) as [_ Hd].
  unfold __iter__. rewrite Hd. clear Hns Hd.
  f_equal. induction Hpub as [|kv rest Hkv _ IH]; [reflexivity|].
  cbn [filter]. rewrite (eqb_fields_hidden _ Hkv). cbn [negb filter].
  rewrite Hkv. cbn [negb]. now rewrite IH.
Qed.

Lemma getitem_int_nat {A : Type} (l : list A) (i : nat) (x : A) :
  nth_error l i = Some x ->
  getitem_int l (Z.of_nat i) = Ok x /\
  getitem_int l (Z.of_nat i - Z.of_nat (List.length l)) = Ok x.
Proof.
  intros Hnth.
  assert (Hlt : (i < List.length l)%nat)
    by (apply nth_error_Some; congruence).
  unfold getitem_int, getitem. split.
  - destruct (Z.ltb_spec (Z.of_nat i) 0); [lia|].
    destruct (Z.ltb_spec (Z.of_nat i) 0); [lia|].
    destruct (Z.leb_spec (Z.of_nat (List.length l)) (Z.of_nat i)); [lia|].
    cbn [orb]. now rewrite Nat2Z.id, Hnth.
  - destruct (Z.ltb_spec (Z.of_nat i - Z.of_nat (List.length l)) 0); [|lia].
    replace (Z.of_nat i - Z.of_nat (List.length l)
             + Z.of_nat (List.length l))%Z with (Z.of_nat i) by lia.
    destruct (Z.ltb_spec (Z.of_nat i) 0); [lia|].
    destruct (Z.leb_spec (Z.of_nat (List.length l)) (Z.of_nat i)); [lia|].
    cbn [orb]. now rewrite Nat2Z.id, Hnth.
Qed.


(** A name space built from keywords without a leading underscore is a
    sequence of their values: its length is their number, iterating it
    gives the values in the order of the keywords, and the position [i],
    counted from the front or as [i - len] from the back, holds the
    [i]-th value (when this is no list). *)
Theorem IterNamespace_is_a_sequence
  (kwargs : list (string * V)) (ns : IterNamespace V) :
  IterNamespace_init kwargs = Ok ns ->
  Forall (fun kv => hidden (fst kv) = false) kwargs ->
  __len__ ns = List.length kwargs /\
  __iter__ ns = map snd kwargs /\
  forall (i : nat) (k : string) (v : V),
    nth_error kwargs i = Some (k, v) ->
    as_list v = None ->
    __getitem__ as_list ns (Z.of_nat i) = Ok (Plain v) /\
    __getitem__ as_list ns (Z.of_nat i - Z.of_nat (__len__ ns))
    = Ok (Plain v).
Proof.
  intros Hns Hpub. destruct (IterNamespace_init_Ok _ _ Hns) as [Hf _].
  assert (Hlen : __len__ ns = List.length kwargs)
    by (unfold __len__; rewrite Hf; apply length_map).
  pose proof (iter_public kwargs ns Hns Hpub) as Hiter.
  split; [exact Hlen|]. split; [exact Hiter|].
  intros i k v Hnth Hplain.
  assert (Hk : nth_error (_fields ns) i = Some k)
    by (now rewrite Hf, nth_error_map, Hnth).
  assert (Hv : nth_error (__iter__ ns) i = Some v)
    by (now rewrite Hiter, nth_error_map, Hnth).
  destruct (getitem_int_nat _ _ _ Hk) as [Hk1 Hk2].
  destruct (getitem_int_nat _ _ _ Hv) as [Hv1 Hv2].
  assert (Hlen' : List.length (__iter__ ns) = List.length (_fields ns)).
  { rewrite Hiter, length_map. symmetry. exact Hlen. }
  rewrite Hlen' in Hv2.
  unfold __getitem__, __len__. rewrite Hk1, Hk2. cbn [bind].
  rewrite Hv1, Hv2. cbn [bind]. rewrite Hplain. split; reflexivity.
Qed.



End NamespaceFacts.

Lemma IterNamespace_is_a_sequence_witness :
  exists ns : Namespace.IterNamespace Z,
    Namespace.IterNamespace_init [("fwhm", 4%Z); ("pa", 30%Z)]%string = Ok ns /\
    Namespace.__len__ ns = 2%nat /\
    Namespace.__iter__ ns = [4%Z; 30%Z] /\
    forall (i : nat) (k : string) (v : Z),
      nth_error [("fwhm", 4%Z); ("pa", 30%Z)]%string i = Some (k, v) ->
      (fun _ : Z => @None (list Z)) v = None ->
      Namespace.__getitem__ (fun _ => None) ns (Z.of_nat i)
      = Ok (Namespace.Plain v) /\
      Namespace.__getitem__ (fun _ => None) ns
        (Z.of_nat i - Z.of_nat (Namespace.__len__ ns))
      = Ok (Namespace.Plain v).
Proof.
  eexists. split; [reflexivity|].
  apply (IterNamespace_is_a_sequence Z (fun _ => None)
           [("fwhm", 4%Z); ("pa", 30%Z)]%string).
  - reflexivity.
  - repeat constructor.
Defined.


Section MakeParamsFacts.

Import Namespace.

Variable unit : Type.

Lemma with_units_combine {A : Type} (xs : list A) (units : list unit) :
  forall i : nat,
    (i + List.length xs <= List.length units)%nat ->
    with_units i xs units = Ok (combine xs (skipn i units)).
Proof.
  induction xs as [|x rest IH]; intros i Hlen; [reflexivity|].
  cbn [List.length] in Hlen. cbn [with_units]. unfold getitem.
  destruct (nth_error units i) as [unit_i|] eqn:Hnth.
  2:{ apply nth_error_None in Hnth. lia. }
  cbn [bind]. rewrite (IH (S i)) by lia. cbn [bind].
  destruct (skipn i units) as [|u0 tl] eqn:Hskip.
  - apply (f_equal (@List.length unit)) in Hskip.
    rewrite length_skipn in Hskip. cbn [List.length] in Hskip. lia.
  - assert (Hhd : nth_error (skipn i units) 0 = Some unit_i)
      by (rewrite nth_error_skipn, Nat.add_0_r; exact Hnth).
    rewrite Hskip in Hhd. cbn in Hhd. injection Hhd as ->.
    assert (Htl : skipn (S i) units = tl).
    { replace (S i) with (1 + i)%nat by lia.
      rewrite <- skipn_skipn, Hskip. reflexivity. }
    now rewrite Htl.
Qed.

Lemma with_units_short {A : Type} (xs : list A) (units : list unit) :
  forall i : nat,
    (i <= List.length units)%nat ->
    (List.length units < i + List.length xs)%nat ->
    with_units i xs units = Raise IndexError.
Proof.
  induction xs as [|x rest IH]; intros i Hi Hlen.
  - cbn [List.length] in Hlen. lia.
  - cbn [List.length] in Hlen. cbn [with_units]. unfold getitem.
    destruct (nth_error units i) as [unit_i|] eqn:Hnth; [|reflexivity].
    cbn [bind].
    assert (Hlt : (i < List.length units)%nat)
      by (apply nth_error_Some; congruence).
    rewrite (IH (S i)) by lia. reflexivity.
Qed.

Lemma setitem_new {V : Type} (d : list (string * V)) (k : string) (v : V) :
  ~ In k (map fst d) -> setitem d k v = d ++ [(k, v)].
Proof.
  induction d as [|[k' v'] rest IH]; intros Hnew; [reflexivity|].
  cbn [setitem]. cbn [map fst In] in Hnew.
  destruct (String.eqb k' k) eqn:E.
  - apply String.eqb_eq in E. tauto.
  - cbn [app]. rewrite IH by tauto. reflexivity.
Qed.

Lemma dict_zip_from {V : Type} (kvs d : list (string * V)) :
  NoDup (map fst (d ++ kvs)) ->
  fold_left (fun d kv => setitem d (fst kv) (snd kv)) kvs d = d ++ kvs.
Proof.
  revert d. induction kvs as [|[k v] rest IH]; intros d Hnd.
  - now rewrite app_nil_r.
  - cbn [fold_left fst snd].
    assert (Hnew : ~ In k (map fst d)).
    { rewrite map_app in Hnd. cbn [map fst] in Hnd.
      apply NoDup_remove_2 in Hnd. intros Hin. apply Hnd.
      apply in_or_app. now left. }
    rewrite (setitem_new d k v Hnew).
    rewrite IH; rewrite <- app_assoc; [reflexivity | exact Hnd].
Qed.

Lemma In_firstn {A : Type} (x : A) (l : list A) :
  forall n : nat, In x (firstn n l) -> In x l.
Proof.
  induction l as [|y rest IH]; intros [|n] Hin; cbn in *; try tauto.
  destruct Hin as [->|Hin]; [now left | right; eauto].
Qed.

Lemma NoDup_firstn {A : Type} (n : nat) (l : list A) :
  NoDup l -> NoDup (firstn n l).
Proof.
  intros Hnd. revert n. induction Hnd as [|x rest Hx _ IH]; intros [|n];
    cbn [firstn]; try constructor.
  - intros Hin. apply Hx. eapply In_firstn. exact Hin.
  - apply IH.
Qed.

Lemma keys_of_combine {V : Type} (labels : list string) (values : list V) :
  map fst (combine labels values) = firstn (List.length values) labels.
Proof.
  revert values. induction labels as [|l rest IH]; intros [|v vs];
    cbn [combine map fst List.length firstn]; try reflexivity.
  now rewrite IH.
Qed.

Lemma dict_zip_distinct {V : Type} (labels : list string) (values : list V) :
  NoDup labels -> dict_zip labels values = combine labels values.
Proof.
  intros Hnd. unfold dict_zip. rewrite dict_zip_from; [reflexivity|].
  cbn [app]. rewrite keys_of_combine. now apply NoDup_firstn.
Qed.

Lemma setitem_keys {V : Type} (d : list (string * V)) (k x : string) (v : V) :
  In x (map fst (setitem d k v)) <-> In x (map fst d) \/ x = k.
Proof.
  induction d as [|[k' v'] rest IH]; cbn [setitem map fst In].
  - intuition congruence.
  - destruct (String.eqb k' k) eqn:E; cbn [map fst In].
    + apply String.eqb_eq in E. subst k'. intuition congruence.
    + rewrite IH. tauto.
Qed.

Lemma dict_zip_keys {V : Type} (kvs d : list (string * V)) (x : string) :
  In x (map fst (fold_left (fun d kv => setitem d (fst kv) (snd kv)) kvs d))
  <-> In x (map fst d) \/ In x (map fst kvs).
Proof.
  revert d. induction kvs as [|[k v] rest IH]; intros d;
    cbn [fold_left map fst snd In].
  - tauto.
  - rewrite IH, setitem_keys. intuition congruence.
Qed.

Lemma dict_zip_names_self {V : Type} (labels : list string) (values : list V) :
  existsb (String.eqb "self") (map fst (dict_zip labels values))
  = names_self labels values.
Proof.
  unfold names_self, dict_zip. apply Bool.eq_iff_eq_true.
  rewrite !existsb_exists. rewrite <- keys_of_combine.
  split; intros (x & Hin & Hx); exists x; (split; [|exact Hx]).
  - apply dict_zip_keys in Hin. cbn [map In] in Hin. tauto.
  - apply dict_zip_keys. now right.
Qed.

Lemma combine_public {V : Type} (labels : list string) (values : list V) :
  Forall (fun label => hidden label = false) labels ->
  Forall (fun kv : string * V => hidden (fst kv) = false)
    (combine labels values).
Proof.
  intros Hpub. revert values.
  induction Hpub as [|l rest Hl _ IH]; intros [|v vs]; cbn [combine];
    constructor; [exact Hl | apply IH].
Qed.

Lemma names_self_combine {A : Type} (labels : list string)
  (xs : list A) (units : list unit) :
  (List.length xs <= List.length units)%nat ->
  names_self labels (combine xs units) = names_self labels xs.
Proof.
  intros Hlen. unfold names_self. rewrite length_combine.
  now rewrite Nat.min_l by exact Hlen.
Qed.

(** [_make_params] and [_make_priors] raise IndexError exactly when there
    are more values than units.  Otherwise the units are attached, and
    the call ends in the TypeError of the constructor exactly when the
    keyword [self] is among the labels that get a value; in every other
    case it returns a name space. *)
Theorem make_params_needs_a_unit_each
  (params : list float) (priors : list (list float)) (units : list unit)
  (labels : list string) :
  (if (List.length params <=? List.length units)%nat
   then if names_self labels params
        then _make_params params units labels = Raise TypeError
        else exists ns, _make_params params units labels = Ok ns
   else _make_params params units labels = Raise IndexError) /\
  (if (List.length priors <=? List.length units)%nat
   then if names_self labels priors
        then _make_priors priors units labels = Raise TypeError
        else exists ns, _make_priors priors units labels = Ok ns
   else _make_priors priors units labels = Raise IndexError).
Proof.
  unfold _make_params, _make_priors. split.
  - destruct (Nat.leb_spec (List.length params) (List.length units)).
    + rewrite with_units_combine by lia. cbn [bind skipn].
      unfold IterNamespace_init.
      rewrite dict_zip_names_self, names_self_combine by lia.
      destruct (names_self labels params); [reflexivity|].
      eexists. reflexivity.
    + rewrite with_units_short by lia. reflexivity.
  - destruct (Nat.leb_spec (List.length priors) (List.length units)).
    + rewrite with_units_combine by lia. cbn [bind skipn].
      unfold IterNamespace_init.
      rewrite dict_zip_names_self, names_self_combine by lia.
      destruct (names_self labels priors); [reflexivity|].
      eexists. reflexivity.
    + rewrite with_units_short by lia. reflexivity.
Qed.

(** With distinct labels that have no leading underscore and are not
    [self], the name space of [_make_params] holds the parameters with
    their units in order, as many as there are labels: a parameter beyond
    the labels is dropped without an error, and a label beyond the
    parameters names nothing. *)
Theorem make_params_follows_the_labels
  (params : list float) (units : list unit) (labels : list string) :
  NoDup labels ->
  Forall (fun label => hidden label = false) labels ->
  ~ In "self"%string labels ->
  (List.length params <= List.length units)%nat ->
  exists ns,
    _make_params params units labels = Ok ns /\
    _fields ns = firstn (List.length params) labels /\
    __iter__ ns = firstn (List.length labels) (combine params units) /\
    __len__ ns = Nat.min (List.length labels) (List.length params).
Proof.
  intros Hnd Hpub Hself Hlen. unfold _make_params.
  rewrite with_units_combine by lia. cbn [skipn bind].
  assert (Hno : names_self labels (combine params units) = false).
  { unfold names_self.
    destruct (existsb (String.eqb "self")
                (firstn (List.length (combine params units)) labels)) eqn:E;
      [|reflexivity].
    apply existsb_exists in E. destruct E as (x & Hin & Hx).
    apply String.eqb_eq in Hx. subst x. apply In_firstn in Hin. tauto. }
  destruct (IterNamespace_init (dict_zip labels (combine params units)))
    as [ns|e] eqn:Hns.
  2:{ unfold IterNamespace_init in Hns.
      rewrite dict_zip_names_self, Hno in Hns. discriminate. }
  exists ns. split; [reflexivity|].
  rewrite (dict_zip_distinct labels (combine params units) Hnd) in Hns.
  destruct (IterNamespace_init_Ok _ _ _ Hns) as [Hf _].
  assert (Hfields : map fst (combine labels (combine params units))
                    = firstn (List.length params) labels).
  { rewrite keys_of_combine, length_combine.
    now rewrite Nat.min_l by exact Hlen. }
  assert (Hvalues : map snd (combine labels (combine params units))
                    = firstn (List.length labels) (combine params units)).
  { clear. generalize (combine params units) as qs.
    induction labels as [|l rest IH]; intros [|q qs]; cbn; try reflexivity.
    now rewrite IH. }
  split; [now rewrite Hf|]. split.
  - rewrite (iter_public _ _ _ Hns) by (now apply combine_public).
    exact Hvalues.
  - unfold __len__. rewrite Hf, Hfields, length_firstn. lia.
Qed.

End MakeParamsFacts.

Lemma make_params_follows_the_labels_witness :
  exists ns,
    Namespace._make_params [4%float; 7%float] ["mas"; "deg"; "K"]%string
      ["fwhm"]%string = Ok ns /\
    Namespace._fields ns = firstn 2 ["fwhm"]%string /\
    Namespace.__iter__ ns
    = firstn 1 (combine [4%float; 7%float] ["mas"; "deg"; "K"]%string) /\
    Namespace.__len__ ns = Nat.min 1 2.
Proof.
  apply (make_params_follows_the_labels string
           [4%float; 7%float] ["mas"; "deg"; "K"]%string ["fwhm"]%string).
  - repeat constructor. simpl. tauto.
  - repeat constructor.
  - simpl. intros [H|[]]. discriminate H.
  - simpl. lia.
Defined.

Section FixedParamsFacts.

Import ModelBase.
Import Namespace.

Ltac fix_step :=
  cbn -[nearest_float PrimFloat.is_infinity int64];
  unfold as_int, times_unit, times_L_sun, float_of_int;
  cbn -[nearest_float PrimFloat.is_infinity int64];
  repeat match goal with
         | E : int64 ?n = _ |- context [int64 ?n] =>
             rewrite E; cbn -[nearest_float PrimFloat.is_infinity int64]
         end;
  try match goal with
      | |- context [int64 ?n] => destruct (int64 n) eqn:?
      | |- context [PrimFloat.is_infinity (nearest_float ?n)] =>
          destruct (PrimFloat.is_infinity (nearest_float n))
      end;
  cbn -[nearest_float PrimFloat.is_infinity int64].

Ltac fix_done :=
  repeat match goal with
         | |- context [if ?b then _ else _] => destruct b
         end;
  first [reflexivity | left; reflexivity | right; reflexivity].

Ltac fix_argument a :=
  destruct a as [? | ? [| | | | |?]]; fix_step; try fix_done.

(** [make_fixed_params] accepts for each argument a bare int or a
    quantity that already has the unit of its place, and never converts
    a unit.  When every bare int can be stored (as a 64-bit integer for
    [image_size] and [pixel_sampling], as a float for the others): if all
    arguments fit, the name space has the seven fields and every one is
    a quantity in its unit (mas, none, K, K, pc, W, none), and if one does
    not, the call raises IOError.  When a bare int cannot be stored, the
    call raises OverflowError, or the IOError of a quantity before it.
    So whenever the call returns, every field has its unit. *)
Theorem make_fixed_params_units
  (field_of_view image_size' sublimation_temperature effective_temperature
     distance' luminosity_star : numeric)
  (pixel_sampling' : option numeric) :
  let made :=
    make_fixed_params field_of_view image_size' sublimation_temperature
      effective_temperature distance' luminosity_star pixel_sampling' in
  let fits :=
    fits_unit u_mas field_of_view
    && fits_unit u_dimensionless_unscaled image_size'
    && fits_unit u_K sublimation_temperature
    && fits_unit u_K effective_temperature
    && fits_unit u_pc distance'
    && fits_unit u_W luminosity_star
    && match pixel_sampling' with
       | Some sampling => fits_unit u_dimensionless_unscaled sampling
       | None => true
       end in
  let stored :=
    has_float field_of_view
    && has_int64 image_size'
    && has_float sublimation_temperature
    && has_float effective_temperature
    && has_float distance'
    && has_float luminosity_star
    && match pixel_sampling' with
       | Some sampling => has_int64 sampling
       | None => true
       end in
  (if stored
   then if fits
        then exists ns,
               made = Ok ns /\
               _fields ns = map key_name keys /\
               map unit_of (__iter__ ns) = map Some units
        else made = Raise IOError
   else made = Raise OverflowError \/ made = Raise IOError) /\
  (forall ns,
     made = Ok ns ->
     fits = true /\
     _fields ns = map key_name keys /\
     map unit_of (__iter__ ns) = map Some units).
Proof.
  intros made fits stored.
  assert (H : if stored
              then if fits
                   then exists ns,
                          made = Ok ns /\
                          _fields ns = map key_name keys /\
                          map unit_of (__iter__ ns) = map Some units
                   else made = Raise IOError
              else made = Raise OverflowError \/ made = Raise IOError).
  { subst made fits stored. unfold make_fixed_params.
    fix_argument field_of_view; fix_argument image_size';
      fix_argument sublimation_temperature;
      fix_argument effective_temperature; fix_argument distance';
      fix_argument luminosity_star;
      (destruct pixel_sampling' as [sampling|];
       [fix_argument sampling | fix_step]);
      eexists; repeat split; reflexivity. }
  split; [exact H|].
  intros ns Hns. destruct stored.
  - destruct fits.
    + destruct H as (ns' & Hns' & Hf & Hu). rewrite Hns in Hns'.
      injection Hns' as <-. auto.
    + rewrite Hns in H. discriminate H.
  - rewrite Hns in H. destruct H as [H|H]; discriminate H.
Qed.

(** Leaving [pixel_sampling] out is the same as passing the image size
    for it: the field takes the quantity made of [image_size], whatever
    the other arguments are. *)
Theorem make_fixed_params_default_sampling
  (field_of_view image_size' sublimation_temperature effective_temperature
     distance' luminosity_star : numeric) :
  make_fixed_params field_of_view image_size'
    sublimation_temperature effective_temperature distance'
    luminosity_star None =
  make_fixed_params field_of_view image_size'
    sublimation_temperature effective_temperature distance'
    luminosity_star (Some image_size').
Proof.
  unfold make_fixed_params.
  fix_argument field_of_view; fix_argument image_size';
    fix_argument sublimation_temperature;
    fix_argument effective_temperature; fix_argument distance';
    fix_argument luminosity_star; fix_step; reflexivity.
Qed.

End FixedParamsFacts.

(** ** The (u, v) grid of model_base.py *)

Section SetUVGridFacts.

Import ModelBase.
Import UVGrid.

Variable negative : value -> result value.
Variable attribute : value -> string -> result value.
Variable baselines : Type.
Variable grid_from_image :
  obj -> value -> value -> value -> value -> result baselines.
Variable grid_from_uvcoords :
  obj -> value -> value -> value -> value -> result baselines.

Lemma size_is_unbound : load_global "size" = Raise (NameError "size").
Proof. reflexivity. Qed.

(** [set_uv_grid] never returns a grid.  Without [uvcoords] it reads the
    name [size], which nothing binds; with them it reads [u], which the
    body itself assigns later and so is an unbound local.  Whatever the
    instance and the arguments are, the call ends in an exception, and
    this is a NameError as soon as the attribute the branch reads first
    ([image_size] with its negation, or [wavelength] with its [to]) is
    there. *)
Theorem set_uv_grid_always_raises
  (self : obj) (incline_params uvcoords vector : value) :
  (exists e : exn,
     set_uv_grid negative attribute grid_from_image grid_from_uvcoords
       self incline_params uvcoords vector = Raise e) /\
  (forall np_linspace image_size start,
     attribute (VObject "np") "linspace" = Ok np_linspace ->
     getattr self "image_size" = Ok image_size ->
     negative image_size = Ok start ->
     set_uv_grid negative attribute grid_from_image grid_from_uvcoords
       self incline_params VNone vector = Raise (NameError "size")) /\
  (forall wavelength to,
     uvcoords <> VNone ->
     getattr self "wavelength" = Ok wavelength ->
     attribute wavelength "to" = Ok to ->
     set_uv_grid negative attribute grid_from_image grid_from_uvcoords
       self incline_params uvcoords vector = Raise (NameError "u")).
Proof.
  split; [|split].
  - unfold set_uv_grid. cbn [load_fast lookup String.eqb Ascii.eqb Bool.eqb bind].
    destruct uvcoords as [| n | n units | name].
    + change (load_global "np") with (Ok (VObject "np")). cbn [bind].
      destruct (attribute (VObject "np") "linspace") as [linspace|e];
        [|now exists e].
      cbn [bind]. destruct (getattr self "image_size") as [image_size|e];
        [|now exists e].
      cbn [bind]. destruct (negative image_size) as [start|e];
        [|now exists e].
      cbn [bind]. rewrite size_is_unbound. now eexists.
    + destruct (getattr self "wavelength") as [wavelength|e]; [|now exists e].
      cbn [bind]. destruct (attribute wavelength "to") as [to|e];
        [|now exists e].
      now eexists.
    + destruct (getattr self "wavelength") as [wavelength|e]; [|now exists e].
      cbn [bind]. destruct (attribute wavelength "to") as [to|e];
        [|now exists e].
      now eexists.
    + destruct (getattr self "wavelength") as [wavelength|e]; [|now exists e].
      cbn [bind]. destruct (attribute wavelength "to") as [to|e];
        [|now exists e].
      now eexists.
  - intros np_linspace image_size start Hnp Himage Hneg.
    unfold set_uv_grid. cbn [load_fast lookup String.eqb Ascii.eqb Bool.eqb bind].
    change (load_global "np") with (Ok (VObject "np")). cbn [bind].
    rewrite Hnp. cbn [bind]. rewrite Himage. cbn [bind]. rewrite Hneg.
    cbn [bind]. now rewrite size_is_unbound.
  - intros wavelength to Hsome Hwl Hto.
    unfold set_uv_grid. cbn [load_fast lookup String.eqb Ascii.eqb Bool.eqb bind].
    destruct uvcoords as [| n | n units | name]; [congruence| | |];
      rewrite Hwl; cbn [bind]; rewrite Hto; reflexivity.
Qed.

End SetUVGridFacts.

(** ** The windows of several targets *)

(** For several target wavelengths and one shared window width,
    [get_wavelength_indices] returns one list per target, in the order of
    the targets: the list at the place of a target holds, in strictly
    increasing order, exactly the positions of the wavelength solution
    whose value lies strictly between [target - width/2] and
    [target + width/2].  Every index is therefore a position of the
    solution and can index a row of the data. *)
Theorem get_wavelength_indices_per_target
  (self : Readout.ReadoutFits) (wavelengths : list float) (width : float) :
  exists windows : list (list nat),
    Readout.get_wavelength_indices self wavelengths [width] = Ok windows /\
    Forall2
      (fun target idx =>
         StronglySorted lt idx /\
         (forall i : nat,
             In i idx <->
             exists s : float,
               nth_error (Readout.wavelength_solution self) i = Some s /\
               (target - width / 2 <? s)%float = true /\
               (s <? target + width / 2)%float = true) /\
         Forall (fun i =>
                   (i < List.length (Readout.wavelength_solution self))%nat)
           idx)
      wavelengths windows.
Proof.
  rewrite get_wavelength_indices_shared_window.
  eexists. split; [reflexivity|].
  induction wavelengths as [|target rest IH]; cbn [map]; constructor;
    [|exact IH].
  split; [apply window_indices_sorted|]. split.
  - intros i. apply window_indices_In.
  - apply Forall_forall. intros i Hi. apply window_indices_In in Hi.
    destruct Hi as (s & Hs & _). apply nth_error_Some. congruence.
Qed.

(** ** The helper methods of [Model] *)

Section ModelHelpersFacts.

Import ModelBase.
Import UVGrid.
Import ModelHelpers.

Variable radius_m : value -> value -> result value.
Variable divide : value -> value -> result value.
Variable call : value -> list value -> result value.
Variable temperature_from : value -> value -> value -> result value.
Variable flux_from : obj -> value -> list value -> result value.

(** The helper methods of [Model] call names that the module never
    binds, so none of them returns a value.  [_sublimation_temperature]
    raises the NameError of [m2mas] for all arguments;
    [_stellar_radius_pc] ([PARSEC2M]) and [_sublimation_radius] ([m2mas])
    raise theirs as soon as the radius before is computed; [_get_flux]
    raises the one of [sublimation_temperature] whenever an inner radius
    is passed. *)
Theorem Model_helpers_call_unbound_names
  (self : obj) (a b c r_sub tau_0 q p : value) :
  _sublimation_temperature divide call temperature_from self a b c
  = Raise (NameError "m2mas") /\
  (exists e : exn, _stellar_radius_pc radius_m divide self a b = Raise e) /\
  (forall r : value,
     radius_m b a = Ok r ->
     _stellar_radius_pc radius_m divide self a b
     = Raise (NameError "PARSEC2M")) /\
  (exists e : exn, _sublimation_radius radius_m call self a b c = Raise e) /\
  (forall r : value,
     radius_m b a = Ok r ->
     _sublimation_radius radius_m call self a b c
     = Raise (NameError "m2mas")) /\
  (r_sub <> VNone ->
   _get_flux call flux_from self tau_0 q p r_sub
   = Raise (NameError "sublimation_temperature")).
Proof.
  repeat split.
  - unfold _stellar_radius_pc.
    destruct (radius_m b a) as [r|e]; [|now exists e]. now eexists.
  - intros r Hr. unfold _stellar_radius_pc. now rewrite Hr.
  - unfold _sublimation_radius.
    destruct (radius_m b a) as [r|e]; [|now exists e]. now eexists.
  - intros r Hr. unfold _sublimation_radius. now rewrite Hr.
  - intros Hsome. unfold _get_flux.
    destruct r_sub; [congruence | reflexivity | reflexivity | reflexivity].
Qed.

End ModelHelpersFacts.
